(** * InciReport: the data-normalization pipeline of the incident dashboard

    A shallow embedding of [InciReport.py]: the header clean-up and the
    rename table, [standardize_time], the derivation of the hour, of the
    time range and of the day of week, the incident-type filter of
    [update_graphs] and the pie chart callback.

    Python strings are modelled as Rocq strings whose characters are the
    code points below 256 (ASCII and Latin-1); [str.strip], [str.lower]
    and the regular expressions of pandas' [strptime] are written out on
    that range.  A timestamp is the number of seconds since midnight of
    1900-01-01, the date pandas fills in when a format has no date part. *)

From Stdlib Require Import ZArith List Bool Lia Ascii String.
Import ListNotations.

Open Scope string_scope.
Open Scope Z_scope.

(** ** Python strings *)

Module PyStr.

(** The code point of a character. *)
Definition code (c : ascii) : Z := Z.of_N (N_of_ascii c).

Definition chr (n : Z) : ascii := ascii_of_N (Z.to_N n).

Definition in_range (lo hi c : ascii) : bool :=
  (code lo <=? code c) && (code c <=? code hi).

(** [str.isspace] on one character: TAB..CR, FS..US and the space, then
    NEL (0x85) and the non-breaking space (0xA0). *)
Definition isspace (c : ascii) : bool :=
  let n := code c in
  ((9 <=? n) && (n <=? 13)) || ((28 <=? n) && (n <=? 32))
  || (n =? 133) || (n =? 160).

(** [str.lower] on one character: A..Z, and the Latin-1 capitals
    0xC0..0xDE without the multiplication sign 0xD7. *)
Definition isupper (c : ascii) : bool :=
  let n := code c in
  ((65 <=? n) && (n <=? 90))
  || ((192 <=? n) && (n <=? 222) && negb (n =? 215)).

Definition lower_char (c : ascii) : ascii :=
  if isupper c then chr (code c + 32) else c.

Fixpoint lower (s : string) : string :=
  match s with
  | EmptyString => EmptyString
  | String c r => String (lower_char c) (lower r)
  end.

Fixpoint lstrip (s : string) : string :=
  match s with
  | EmptyString => EmptyString
  | String c r => if isspace c then lstrip r else s
  end.

Fixpoint rstrip (s : string) : string :=
  match s with
  | EmptyString => EmptyString
  | String c r =>
      match rstrip r with
      | EmptyString => if isspace c then EmptyString else String c EmptyString
      | r' => String c r'
      end
  end.

(** [s.strip()] *)
Definition strip (s : string) : string := rstrip (lstrip s).

(** [s.replace(old, new)] for patterns of one character, the only ones
    the program uses. *)
Fixpoint replace (old new : ascii) (s : string) : string :=
  match s with
  | EmptyString => EmptyString
  | String c r =>
      String (if Ascii.eqb c old then new else c) (replace old new r)
  end.

(** [sub in s] *)
Fixpoint contains (sub s : string) : bool :=
  prefix sub s
  || match s with
     | EmptyString => false
     | String _ r => contains sub r
     end.

Definition digit_val (c : ascii) : Z := code c - 48.

(** [int(s)] on a string of decimal digits. *)
Definition int_digits (s : string) : Z :=
  (fix go (acc : Z) (s : string) : Z :=
     match s with
     | EmptyString => acc
     | String c r => go (10 * acc + digit_val c) r
     end) 0 s.

Definition digit_char (d : Z) : ascii := chr (48 + d).

(** ["%02d" % n] for [0 <= n < 100]. *)
Definition two_digits (n : Z) : string :=
  String (digit_char (n / 10)) (String (digit_char (n mod 10)) EmptyString).

Definition newline : ascii := chr 10.
Definition nbsp : ascii := chr 160.
Definition dquote : string := String (chr 34) EmptyString.

End PyStr.

(** ** Python values and exceptions *)

Inductive exn : Type :=
| AttributeError
| ValueError.

Inductive result (A : Type) : Type :=
| Ok (a : A)
| Raise (e : exn).

Arguments Ok {A} a.
Arguments Raise {A} e.

Definition bind {A B : Type} (m : result A) (k : A -> result B) : result B :=
  match m with
  | Ok a => k a
  | Raise e => Raise e
  end.

Notation "x <- m ;; k" := (bind m (fun x => k))
  (at level 61, m at next level, right associativity).

(** [try: body  except: return fallback] with a bare [except]. *)
Definition try_except {A : Type} (body : result A) (fallback : A) : result A :=
  match body with
  | Ok a => Ok a
  | Raise _ => Ok fallback
  end.

Fixpoint mapM {A B : Type} (f : A -> result B) (l : list A) : result (list B) :=
  match l with
  | [] => Ok []
  | a :: l' => b <- f a ;; bs <- mapM f l' ;; Ok (b :: bs)
  end.

(** The values a spreadsheet cell can hold after [pd.read_excel]. *)
Inductive pyval : Type :=
| PyNone
| PyNaN                              (* the float of an empty cell *)
| PyNaT
| PyStr (s : string)
| PyInt (z : Z)
| PyFloat (mantissa exponent : Z)    (* a finite float *)
| PyBool (b : bool)
| PyTime (h m s : Z)                 (* datetime.time *)
| PyDatetime (seconds : Z).          (* datetime.datetime *)

(** [pd.isnull] on a scalar. *)
Definition isnull (v : pyval) : bool :=
  match v with
  | PyNone | PyNaN | PyNaT => true
  | _ => false
  end.

(** [v.strip()]: only [str] has the attribute. *)
Definition call_strip (v : pyval) : result string :=
  match v with
  | PyStr s => Ok (PyStr.strip s)
  | _ => Raise AttributeError
  end.

(** ** pandas' [to_datetime] with an explicit format

    [pd.to_datetime(val, format=fmt)] turns [fmt] into a regular
    expression, one named group per directive, matches it at the start of
    [val] with Python's backtracking matcher and refuses a match that
    leaves text over.  Only the directives the program uses are modelled:
    [%H], [%I], [%M], [%S] and [%p]; its formats hold no white space. *)

Module Strptime.
Import PyStr.

Inductive directive : Type := dH | dI | dM | dS | dp.

Definition directive_eqb (a b : directive) : bool :=
  match a, b with
  | dH, dH | dI, dI | dM, dM | dS, dS | dp, dp => true
  | _, _ => false
  end.

Inductive item : Type :=
| Dir (d : directive)
| Lit (c : ascii).

Definition directive_of (c : ascii) : option directive :=
  if Ascii.eqb c "H" then Some dH
  else if Ascii.eqb c "I" then Some dI
  else if Ascii.eqb c "M" then Some dM
  else if Ascii.eqb c "S" then Some dS
  else if Ascii.eqb c "p" then Some dp
  else None.

(** The items of a format string; [None] for a directive outside the
    modelled ones. *)
Fixpoint parse_format (fmt : string) : option (list item) :=
  match fmt with
  | EmptyString => Some []
  | String c r =>
      if Ascii.eqb c "%" then
        match r with
        | EmptyString => None
        | String d r' =>
            match directive_of d, parse_format r' with
            | Some d, Some items => Some (Dir d :: items)
            | _, _ => None
            end
        end
      else
        match parse_format r with
        | Some items => Some (Lit c :: items)
        | None => None
        end
  end.

(** A regular expression, as the list of its matches at the start of a
    string in the order the matcher tries them: the text of the match
    and the text left after it. *)
Definition regex : Type := string -> list (string * string).

Definition one (p : ascii -> bool) : regex :=
  fun s =>
    match s with
    | String c r => if p c then [(String c EmptyString, r)] else []
    | EmptyString => []
    end.

Definition cat (a b : regex) : regex :=
  fun s =>
    flat_map (fun m1 => map (fun m2 => (fst m1 ++ fst m2, snd m2)) (b (snd m1)))
             (a s).

Definition alt (a b : regex) : regex := fun s => (a s ++ b s)%list.

(** A literal character; the expression is compiled with
    [re.IGNORECASE]. *)
Definition lit (c : ascii) : regex :=
  one (fun c' => Ascii.eqb (lower_char c') (lower_char c)).

Definition digit : regex := one (in_range "0" "9").

(** The groups of pandas' [TimeRE]; [%p] lists the locale's markers
    [am] and [pm]. *)
Definition directive_regex (d : directive) : regex :=
  match d with
  | dH => alt (cat (lit "2") (one (in_range "0" "3")))
              (alt (cat (one (in_range "0" "1")) digit) digit)
  | dI => alt (cat (lit "1") (one (in_range "0" "2")))
              (alt (cat (lit "0") (one (in_range "1" "9")))
                   (one (in_range "1" "9")))
  | dM => alt (cat (one (in_range "0" "5")) digit) digit
  | dS => alt (cat (lit "6") (one (in_range "0" "1")))
              (alt (cat (one (in_range "0" "5")) digit) digit)
  | dp => alt (cat (lit "a") (lit "m")) (cat (lit "p") (lit "m"))
  end.

Definition found_dict : Type := list (directive * string).

Fixpoint matches (items : list item) (s : string) : list (found_dict * string) :=
  match items with
  | [] => [([], s)]
  | Lit c :: items' =>
      flat_map (fun m => matches items' (snd m)) (lit c s)
  | Dir d :: items' =>
      flat_map
        (fun m => map (fun fr => ((d, fst m) :: fst fr, snd fr))
                      (matches items' (snd m)))
        (directive_regex d s)
  end.

(** [format_regex.match(val)]: the first match, if any. *)
Definition re_match (items : list item) (s : string) : option (found_dict * string) :=
  hd_error (matches items s).

Fixpoint get (d : directive) (found : found_dict) : option string :=
  match found with
  | [] => None
  | (k, g) :: found' => if directive_eqb k d then Some g else get d found'
  end.

Record fields : Type := mkFields { hour : Z; minute : Z; second : Z }.

(** The loop over the groups that did match. *)
Definition set_field (found : found_dict) (acc : fields) (kg : directive * string) : fields :=
  let (k, g) := kg in
  match k with
  | dH => mkFields (int_digits g) (minute acc) (second acc)
  | dI =>
      let h := int_digits g in
      let ampm := lower (match get dp found with Some p => p | None => EmptyString end) in
      let h' :=
        if (ampm =? "")%string || (ampm =? "am")%string then
          (if h =? 12 then 0 else h)
        else if (ampm =? "pm")%string then
          (if h =? 12 then h else h + 12)
        else h in
      mkFields h' (minute acc) (second acc)
  | dM => mkFields (hour acc) (int_digits g) (second acc)
  | dS => mkFields (hour acc) (minute acc) (int_digits g)
  | dp => acc
  end.

Definition fields_of (found : found_dict) : fields :=
  fold_left (set_field found) found (mkFields 0 0 0).

(** Seconds since 1900-01-01 00:00:00. *)
Definition timestamp : Type := Z.

Definition to_timestamp (f : fields) : timestamp :=
  (hour f * 60 + minute f) * 60 + second f.

Definition ts_hour (t : timestamp) : Z := (t / 3600) mod 24.
Definition ts_minute (t : timestamp) : Z := (t / 60) mod 60.
Definition ts_second (t : timestamp) : Z := t mod 60.

Definition nat_strings : list string :=
  ["NaT"; "nat"; "NAT"; "nan"; "NaN"; "NAN"].

Definition is_nat_string (s : string) : bool :=
  existsb (String.eqb s) nat_strings.

(** One element of [array_strptime] with [exact=True]; [Ok None] is
    [NaT].  From version 2.0 on pandas also reads the words [now] and
    [today] as the time of the call, whatever the format; that needs the
    clock and is not modelled. *)
Definition strptime (val fmt : string) : result (option timestamp) :=
  match parse_format fmt with
  | None => Raise ValueError
  | Some items =>
      if (val =? "")%string || is_nat_string val then Ok None
      else
        match re_match items val with
        | None => Raise ValueError                (* does not match the format *)
        | Some (found, rest) =>
            if (rest =? "")%string
            then Ok (Some (to_timestamp (fields_of found)))
            else Raise ValueError                 (* unconverted data remains *)
        end
  end.

Inductive errors_mode : Type := errors_raise | errors_coerce.

Definition to_datetime (val fmt : string) (errors : errors_mode) : result (option timestamp) :=
  match strptime val fmt, errors with
  | Raise _, errors_coerce => Ok None
  | r, _ => r
  end.

Definition render (t : timestamp) (it : item) : string :=
  match it with
  | Lit c => String c EmptyString
  | Dir dH => two_digits (ts_hour t)
  | Dir dM => two_digits (ts_minute t)
  | Dir dS => two_digits (ts_second t)
  | Dir dI => two_digits (if ts_hour t mod 12 =? 0 then 12 else ts_hour t mod 12)
  | Dir dp => if ts_hour t <? 12 then "AM" else "PM"
  end.

(** [t.strftime(fmt)]; [NaT] has no [strftime]. *)
Definition strftime (t : option timestamp) (fmt : string) : result string :=
  match t, parse_format fmt with
  | Some t, Some items => Ok (String.concat "" (map (render t) items))
  | _, _ => Raise ValueError
  end.

End Strptime.

(** ** The program *)

Import PyStr Strptime.

(** [def standardize_time(time_str)] *)
Definition standardize_time (time_str : pyval) : result string :=
  try_except
    (if isnull time_str then Ok "Unknown"
     else
       time_str <- call_strip time_str ;;
       let time_str := lower time_str in
       if contains "am" time_str || contains "pm" time_str then
         t <- to_datetime time_str "%I:%M%p" errors_raise ;;
         strftime t "%H:%M:%S"
       else if contains "-" time_str then
         Ok "Unknown"
       else
         t <- to_datetime time_str "%H:%M" errors_raise ;;
         strftime t "%H:%M:%S")
    "Unknown".

(** ** Column names (lines 15 to 30) *)

(** [df.columns.str.strip().str.replace('\n', ' ').str.replace('\xa0', ' ')]
    on one header. *)
Definition clean_column (name : string) : string :=
  replace nbsp " " (replace newline " " (strip name)).

Definition rename_mapping : list (string * string) :=
  [ ("Time (AM or PM)", "Incident Time");
    ("Type of incident  *Must Call Police for asterisked/bold violations",
     "Incident Type");
    ("Legal Name of Patron (1) involved (put " ++ dquote ++ "Unknown" ++ dquote
       ++ " if unable to identify)",
     "Patron 1 Name");
    ("Patron (1) Email Address", "Patron 1 Email");
    ("Legal Name of Patron (2) involved (put " ++ dquote ++ "Unknown" ++ dquote
       ++ " if unable to identify)",
     "Patron 2 Name");
    ("Patron (2) Email Address ", "Patron 2 Email");
    ("Additional patron(s) and/or witnesses and contact information",
     "Additional Contacts");
    ("Detailed description of incident (including activity at time of incident). Please give as much information as possible. Example: If a silver MacBook Pro was reported stolen, please describe the it...",
     "Description");
    ("Action Taken", "Action Taken");
    ("Employee completing this form", "Form Employee") ].

Fixpoint dict_get (key : string) (d : list (string * string)) : option string :=
  match d with
  | [] => None
  | (k, v) :: d' => if (k =? key)%string then Some v else dict_get key d'
  end.

(** [df.rename(columns=mapping)] on one column name. *)
Definition rename (mapping : list (string * string)) (name : string) : string :=
  match dict_get name mapping with
  | Some canonical => canonical
  | None => name
  end.

(** The header row after lines 15 and 30. *)
Definition normalize_columns (columns : list string) : list string :=
  map (rename rename_mapping) (map clean_column columns).

(** ** Derived columns (lines 47 to 74) *)

(** A row as the program reads it.  [Date] is the cell after
    [pd.to_datetime(..., errors='coerce')]: the number of days from
    1970-01-01 to the date, [None] for [NaT]. *)
Record raw_row : Type := mkRaw {
  raw_Date : option Z;
  raw_Incident_Time : pyval;
  raw_Incident_Type : option string
}.

Record row : Type := mkRow {
  Date : option Z;
  Incident_Time : pyval;
  Incident_Type : option string;
  Standardized_Incident_Time : string;
  Incident_Hour : Z;
  Day_of_Week : option string;
  Time_Range : string
}.

(** [pd.to_datetime(s, format='%H:%M:%S', errors='coerce').dt.hour]
    followed by [fillna(-1)], on one element. *)
Definition incident_hour (standardized : string) : result Z :=
  t <- to_datetime standardized "%H:%M:%S" errors_coerce ;;
  Ok (match t with
      | Some t => ts_hour t
      | None => -1
      end).

Definition weekdays : list string :=
  ["Monday"; "Tuesday"; "Wednesday"; "Thursday"; "Friday"; "Saturday"; "Sunday"].

(** [.dt.day_name()]; 1970-01-01 was a Thursday. *)
Definition day_name (date : option Z) : option string :=
  match date with
  | Some d => nth_error weekdays (Z.to_nat ((d + 3) mod 7))
  | None => None
  end.

(** [def time_range(hour)] *)
Definition time_range (hour : Z) : string :=
  if hour <? 0 then "Unknown"
  else if (0 <=? hour) && (hour <? 6) then "12am-6am"
  else if (6 <=? hour) && (hour <? 9) then "6am-9am"
  else if (9 <=? hour) && (hour <? 12) then "9am-12pm"
  else if (12 <=? hour) && (hour <? 15) then "12pm-3pm"
  else if (15 <=? hour) && (hour <? 18) then "3pm-6pm"
  else if (18 <=? hour) && (hour <? 21) then "6pm-9pm"
  else "9pm-12am".

Definition time_range_labels : list string :=
  ["Unknown"; "12am-6am"; "6am-9am"; "9am-12pm"; "12pm-3pm"; "3pm-6pm";
   "6pm-9pm"; "9pm-12am"].

Definition derive (r : raw_row) : result row :=
  standardized <- standardize_time (raw_Incident_Time r) ;;
  hour <- incident_hour standardized ;;
  Ok (mkRow (raw_Date r) (raw_Incident_Time r) (raw_Incident_Type r)
            standardized hour (day_name (raw_Date r)) (time_range hour)).

(** The data frame after line 74. *)
Definition preprocess (rows : list raw_row) : result (list row) :=
  mapM derive rows.

(** ** The callbacks *)

(** [df['Incident Type'] == selected_type], on one row: a missing type
    compares unequal to every string. *)
Definition type_is (selected_type : string) (r : row) : bool :=
  match Incident_Type r with
  | Some t => (t =? selected_type)%string
  | None => false
  end.

Definition filtered_df (df : list row) (selected_type : string) : list row :=
  if negb (selected_type =? "All")%string
  then filter (type_is selected_type) df
  else df.

(** [groupby(key).size()]: one count per key, keys in increasing order. *)
Fixpoint tally (k : Z) (acc : list (Z * nat)) : list (Z * nat) :=
  match acc with
  | [] => [(k, 1%nat)]
  | (k', n) :: acc' =>
      if k <? k' then (k, 1%nat) :: acc
      else if k =? k' then (k', S n) :: acc'
      else (k', n) :: tally k acc'
  end.

Definition groupby_size (keys : list Z) : list (Z * nat) :=
  fold_left (fun acc k => tally k acc) keys [].

(** [.value_counts()]: the values are counted in the order they first
    appear, a missing value nowhere, and the counts are then put in
    decreasing order; among equal counts the order of first appearance is
    kept here, which pandas does not promise. *)
Fixpoint bump (x : string) (acc : list (string * nat)) : list (string * nat) :=
  match acc with
  | [] => [(x, 1%nat)]
  | (x', n) :: acc' =>
      if (x' =? x)%string then (x', S n) :: acc' else (x', n) :: bump x acc'
  end.

Definition count_values (xs : list (option string)) : list (string * nat) :=
  fold_left (fun acc x => match x with Some x => bump x acc | None => acc end)
            xs [].

Fixpoint insert_by_count (e : string * nat) (l : list (string * nat)) : list (string * nat) :=
  match l with
  | [] => [e]
  | e' :: l' =>
      if (snd e' <=? snd e)%nat then e :: l else e' :: insert_by_count e l'
  end.

Definition sort_by_count (l : list (string * nat)) : list (string * nat) :=
  fold_right insert_by_count [] l.

Definition value_counts (xs : list (option string)) : list (string * nat) :=
  sort_by_count (count_values xs).

Definition total {K : Type} (counts : list (K * nat)) : nat :=
  fold_right (fun kn acc => (snd kn + acc)%nat) 0%nat counts.

(** The length of the match of [.*?\)] at the start of [s]: up to the
    first closing parenthesis, which no newline may precede. *)
Fixpoint close_paren (s : string) : option nat :=
  match s with
  | EmptyString => None
  | String c r =>
      if Ascii.eqb c ")" then Some 1%nat
      else if Ascii.eqb c newline then None
      else option_map S (close_paren r)
  end.

(** The length of the match of [\s*\(.*?\)] at the start of [s]. *)
Fixpoint match_paren (s : string) : option nat :=
  match s with
  | EmptyString => None
  | String c r =>
      if isspace c then option_map S (match_paren r)
      else if Ascii.eqb c "(" then option_map S (close_paren r)
      else None
  end.

(** [re.sub(r'\s*\(.*?\)', '', s)], with [skip] characters of a match
    still to pass over. *)
Fixpoint sub_paren (skip : nat) (s : string) : string :=
  match s with
  | EmptyString => EmptyString
  | String c r =>
      match skip with
      | S k => sub_paren k r
      | O =>
          match match_paren s with
          | Some (S k) => sub_paren k r
          | _ => String c (sub_paren 0 r)
          end
      end
  end.

(** [.str.replace(r'\s*\(.*?\)', '', regex=True)] on one value. *)
Definition clean_type (t : string) : string := sub_paren 0 t.

(** The type pandas gives the column [Incident Type] when it reads the
    sheet: [float64] when there are rows and none holds a type, [object]
    otherwise.  Filtering keeps the type of the column. *)
Definition type_column_is_float (df : list row) : bool :=
  match df with
  | [] => false
  | _ :: _ =>
      forallb (fun r => match Incident_Type r with
                        | None => true
                        | Some _ => false
                        end) df
  end.

(** [filtered_df['Incident Type'].str]: only a column of [object] type has
    the accessor. *)
Definition str_accessor (df : list row) : result unit :=
  if type_column_is_float df then Raise AttributeError else Ok tt.

(** What [update_graphs] builds its five figures from: the height of the
    bar of the total, the counts of the cleaned types, the counts by hour,
    and the two columns handed to [px.histogram], whose bars the browser
    counts. *)
Record figures : Type := mkFigures {
  total_incidents : nat;
  incident_types_count : list (string * nat);
  hour_fig : list (Z * nat);
  time_range_fig : list string;
  day_fig : list (option string)
}.

(** [def update_graphs(selected_type)] *)
Definition update_graphs (df : list row) (selected_type : string) : result figures :=
  let filtered_df := filtered_df df selected_type in
  _ <- str_accessor df ;;
  Ok (mkFigures
        (List.length filtered_df)
        (value_counts (map (fun r => option_map clean_type (Incident_Type r))
                           filtered_df))
        (groupby_size (map Incident_Hour filtered_df))
        (map Time_Range filtered_df)
        (map Day_of_Week filtered_df)).

(** [def update_pie_chart(_)]: the labels [px.pie] draws its slices from,
    one per row of the whole frame. *)
Definition update_pie_chart (df : list row) (_ : string) : list (option string) :=
  map Incident_Type df.

(** ** The grouping of a column of labels *)

(** Modelled from the spec: the count of the records grouped by a label
    (section 4.5), which the program leaves to the histogram of the
    browser: one count per label, in the order the labels first appear; a
    record whose label is absent is in no group (sections 4.3 and 8). *)
Definition count_by_label (xs : list (option string)) : list (string * nat) :=
  count_values xs.

(** ** Vocabulary of the properties *)

(** The figures of a set of filtered rows. *)
Definition figures_of (rows : list row) : figures :=
  mkFigures
    (List.length rows)
    (value_counts (map (fun r => option_map clean_type (Incident_Type r)) rows))
    (groupby_size (map Incident_Hour rows))
    (map Time_Range rows)
    (map Day_of_Week rows).

(** Each count is at least as high as the counts after it. *)
Fixpoint descending (counts : list (string * nat)) : Prop :=
  match counts with
  | [] => True
  | e :: counts' =>
      Forall (fun e' => (snd e' <= snd e)%nat) counts' /\ descending counts'
  end.

(** The text [HH:MM:SS]. *)
Definition hms (h m s : Z) : string :=
  two_digits h ++ ":" ++ two_digits m ++ ":" ++ two_digits s.


(** A 12-hour input [H:MMam] or [H:MMpm]: the hour from 1 to 12 without
    padding, two digits for the minute, the marker. *)
Definition twelve_hour (h m : Z) (pm : bool) : string :=
  (if h <? 10 then String (digit_char h) EmptyString else two_digits h)
  ++ ":" ++ two_digits m ++ (if pm then "pm" else "am").

(** The hour of the day of a 12-hour reading. *)
Definition hour24 (h : Z) (pm : bool) : Z :=
  if pm then (if h =? 12 then 12 else h + 12) else (if h =? 12 then 0 else h).

(** The integers [0 .. n-1]. *)
Definition upto (n : nat) : list Z := map Z.of_nat (seq 0 n).


Fixpoint all_space (s : string) : bool :=
  match s with
  | EmptyString => true
  | String c r => isspace c && all_space r
  end.

Definition starts_with_space (s : string) : bool :=
  match s with
  | EmptyString => false
  | String c _ => isspace c
  end.

Fixpoint ends_with_space (s : string) : bool :=
  match s with
  | EmptyString => false
  | String c EmptyString => isspace c
  | String _ r => ends_with_space r
  end.

Fixpoint has_char (c : ascii) (s : string) : bool :=
  match s with
  | EmptyString => false
  | String c' r => Ascii.eqb c' c || has_char c r
  end.

Fixpoint map_chars (f : ascii -> ascii) (s : string) : string :=
  match s with
  | EmptyString => EmptyString
  | String c r => String (f c) (map_chars f r)
  end.

(** A newline or a non-breaking space becomes a space. *)
Definition plain_space (c : ascii) : ascii :=
  if Ascii.eqb c newline || Ascii.eqb c nbsp then " "%char else c.

(** The rows whose day of week is missing. *)
Definition missing_days (df : list row) : nat :=
  List.length (filter (fun r => match Day_of_Week r with
                                | None => true
                                | Some _ => false
                                end) df).

(** The entries of a column that are not missing. *)
Definition present {A : Type} (xs : list (option A)) : nat :=
  List.length (filter (fun x => match x with
                                | Some _ => true
                                | None => false
                                end) xs).

(** A computation returned [a]. *)
Definition result_is {A : Type} (eqb : A -> A -> bool) (r : result A) (a : A) : bool :=
  match r with
  | Ok x => eqb x a
  | Raise _ => false
  end.

(** * The rest of the program *)

(** ** The dropdown (lines 77 and 87) *)

(** [.dropna()] *)
Fixpoint dropna (xs : list (option string)) : list string :=
  match xs with
  | [] => []
  | Some x :: xs' => x :: dropna xs'
  | None :: xs' => dropna xs'
  end.

(** [.unique()]: the values in the order they first appear. *)
Fixpoint unique_from (seen xs : list string) : list string :=
  match xs with
  | [] => []
  | x :: xs' =>
      if existsb (String.eqb x) seen then unique_from seen xs'
      else x :: unique_from (x :: seen) xs'
  end.

Definition unique (xs : list string) : list string := unique_from [] xs.

(** [sorted(xs)] on strings, compared code point by code point. *)
Fixpoint insert_sorted (x : string) (l : list string) : list string :=
  match l with
  | [] => [x]
  | y :: l' => if String.leb x y then x :: l else y :: insert_sorted x l'
  end.

Definition sorted (xs : list string) : list string :=
  fold_right insert_sorted [] xs.

(** [incident_types = df['Incident Type'].dropna().unique()] *)
Definition incident_types (df : list row) : list string :=
  unique (dropna (map Incident_Type df)).

Record dropdown_option : Type := mkOption {
  label : string;
  value : string
}.

(** The [options] of the dropdown. *)
Definition dropdown_options (df : list row) : list dropdown_option :=
  mkOption "All Types" "All"
  :: map (fun it => mkOption it it) (sorted (incident_types df)).

(** ** Vocabulary of the further properties *)

Fixpoint no_hyphen_literal (items : list item) : bool :=
  match items with
  | [] => true
  | Lit c :: items' => negb (Ascii.eqb (lower_char c) "-") && no_hyphen_literal items'
  | Dir _ :: items' => no_hyphen_literal items'
  end.

Definition clock (h m : Z) (pad_hour : bool) : string :=
  (if pad_hour || (10 <=? h) then two_digits h else String (digit_char h) EmptyString)
  ++ ":" ++ two_digits m.

Definition marker (pm : bool) : string := if pm then "pm" else "am".

(** A row of the frame comes from a row of the sheet. *)
Definition derived_from (raw : raw_row) (r : row) : Prop :=
  Date r = raw_Date raw
  /\ Incident_Time r = raw_Incident_Time raw
  /\ Incident_Type r = raw_Incident_Type raw
  /\ standardize_time (raw_Incident_Time raw) = Ok (Standardized_Incident_Time r)
  /\ Day_of_Week r = day_name (raw_Date raw)
  /\ Time_Range r = time_range (Incident_Hour r)
  /\ -1 <= Incident_Hour r <= 23
  /\ In (Time_Range r) time_range_labels
  /\ (Standardized_Incident_Time r = "Unknown" <-> Incident_Hour r = -1)
  /\ (Time_Range r = "Unknown" <-> Incident_Hour r = -1).

(** The rows with a date. *)
Definition dated (df : list row) : nat :=
  List.length (filter (fun r => match Date r with
                                | Some _ => true
                                | None => false
                                end) df).

(** The count a grouping gives to a key; 0 when the key has no group. *)
Fixpoint count_at (k : Z) (counts : list (Z * nat)) : nat :=
  match counts with
  | [] => 0%nat
  | (k', n) :: counts' => ((if Z.eqb k' k then n else 0%nat) + count_at k counts')%nat
  end.

Fixpoint bar_at (x : string) (bars : list (string * nat)) : nat :=
  match bars with
  | [] => 0%nat
  | (x', n) :: bars' => ((if String.eqb x' x then n else 0%nat) + bar_at x bars')%nat
  end.

(** Each key is below all the keys after it. *)
Fixpoint increasing (keys : list Z) : Prop :=
  match keys with
  | [] => True
  | k :: keys' => Forall (fun k' => k < k') keys' /\ increasing keys'
  end.

(** The rows with a given hour, time range or day of week. *)
Definition rows_at_hour (h : Z) (df : list row) : nat :=
  List.length (filter (fun r => Incident_Hour r =? h) df).

Definition rows_in_range (label : string) (df : list row) : nat :=
  List.length (filter (fun r => (Time_Range r =? label)%string) df).

Definition rows_on_day (day : string) (df : list row) : nat :=
  List.length (filter (fun r => match Day_of_Week r with
                                | Some d => (d =? day)%string
                                | None => false
                                end) df).

Definition is_label (y : string) (x : option string) : bool :=
  match x with
  | Some x => (x =? y)%string
  | None => false
  end.

(** Each string is before all the strings after it. *)
Fixpoint ascending (l : list string) : Prop :=
  match l with
  | [] => True
  | x :: l' => Forall (fun y => String.ltb x y = true) l' /\ ascending l'
  end.

Fixpoint nondecreasing (l : list string) : Prop :=
  match l with
  | [] => True
  | x :: l' => Forall (fun y => String.leb x y = true) l' /\ nondecreasing l'
  end.

(** The rows whose cleaned type is [t]. *)
Definition rows_of_clean_type (t : string) (df : list row) : nat :=
  List.length (filter (fun r => match Incident_Type r with
                                | Some t' => (clean_type t' =? t)%string
                                | None => false
                                end) df).

Definition typed (df : list row) : nat :=
  List.length (filter (fun r => match Incident_Type r with
                                | Some _ => true
                                | None => false
                                end) df).

(** * Properties *)

Ltac Zify.zify_post_hook ::= Z.to_euclidean_division_equations.

(** ** Characters and strings *)

Section Characters.

Lemma code_bounds (c : ascii) : 0 <= code c < 256.
Proof.
  unfold code. pose proof (N_ascii_bounded c). lia.
Qed.

Lemma chr_code (c : ascii) : chr (code c) = c.
Proof.
  unfold chr, code. rewrite N2Z.id. apply ascii_N_embedding.
Qed.

Lemma code_chr (n : Z) : 0 <= n < 256 -> code (chr n) = n.
Proof.
  intros H. unfold chr, code. rewrite N_ascii_embedding by lia. lia.
Qed.

Lemma code_inj (c d : ascii) : code c = code d -> c = d.
Proof.
  intros H. rewrite <- (chr_code c), <- (chr_code d). now rewrite H.
Qed.

Lemma code_lower_char (c : ascii) :
  code (lower_char c) = if isupper c then code c + 32 else code c.
Proof.
  unfold lower_char. destruct (isupper c) eqn:E; [|reflexivity].
  apply code_chr. unfold isupper in E. lia.
Qed.

End Characters.

Section Lower.

Lemma isspace_lower_char (c : ascii) : isspace (lower_char c) = isspace c.
Proof.
  unfold isspace. rewrite code_lower_char.
  destruct (isupper c) eqn:E; [|reflexivity].
  unfold isupper in E. lia.
Qed.

Lemma lower_char_idem (c : ascii) : lower_char (lower_char c) = lower_char c.
Proof.
  assert (H : isupper (lower_char c) = false).
  { unfold isupper at 1. rewrite code_lower_char.
    destruct (isupper c) eqn:E; unfold isupper in E; lia. }
  unfold lower_char at 1. now rewrite H.
Qed.

Lemma lower_idem (s : string) : lower (lower s) = lower s.
Proof.
  induction s as [|c r IH]; cbn; [reflexivity|].
  now rewrite lower_char_idem, IH.
Qed.

Lemma lower_lstrip (s : string) : lower (lstrip s) = lstrip (lower s).
Proof.
  induction s as [|c r IH]; cbn; [reflexivity|].
  rewrite isspace_lower_char. destruct (isspace c); [exact IH|reflexivity].
Qed.

Lemma lower_rstrip (s : string) : lower (rstrip s) = rstrip (lower s).
Proof.
  induction s as [|c r IH]; cbn; [reflexivity|].
  rewrite <- IH, isspace_lower_char.
  destruct (rstrip r); cbn; [destruct (isspace c)|]; reflexivity.
Qed.

Lemma lower_strip (s : string) : lower (strip s) = strip (lower s).
Proof.
  unfold strip. now rewrite lower_rstrip, lower_lstrip.
Qed.

End Lower.

(** ** The regular expressions of the directives *)

Section Regex.

Lemma in_one (p : ascii -> bool) (s g r : string) :
  In (g, r) (one p s) ->
  exists c, s = String c r /\ g = String c EmptyString /\ p c = true.
Proof.
  destruct s as [|c s']; cbn; [tauto|].
  destruct (p c) eqn:E; cbn; [|tauto].
  intros [H|[]]. inversion H; subst. eauto.
Qed.

Lemma in_cat (a b : regex) (s g r : string) :
  In (g, r) (cat a b s) ->
  exists g1 r1 g2,
    In (g1, r1) (a s) /\ In (g2, r) (b r1) /\ g = (g1 ++ g2)%string.
Proof.
  unfold cat. rewrite in_flat_map. intros [[g1 r1] [H1 H2]].
  rewrite in_map_iff in H2. destruct H2 as [[g2 r2] [E H2]].
  cbn in E. inversion E; subst. eauto 6.
Qed.

Lemma in_alt (a b : regex) (s : string) (m : string * string) :
  In m (alt a b s) -> In m (a s) \/ In m (b s).
Proof. unfold alt. apply in_app_or. Qed.

Lemma in_lit (c : ascii) (s g r : string) :
  In (g, r) (lit c s) ->
  exists c', s = String c' r /\ g = String c' EmptyString
             /\ lower_char c' = lower_char c.
Proof.
  intros H. apply in_one in H. destruct H as (c' & -> & -> & E).
  apply Ascii.eqb_eq in E. eauto.
Qed.

Lemma in_digit (lo hi : ascii) (s g r : string) :
  In (g, r) (one (in_range lo hi) s) ->
  exists c, s = String c r /\ g = String c EmptyString
            /\ code lo <= code c <= code hi.
Proof.
  intros H. apply in_one in H. destruct H as (c & -> & -> & E).
  exists c. unfold in_range in E. repeat split; lia.
Qed.

(** A literal digit of the pattern matches that digit only. *)
Lemma lit_digit (c d : ascii) :
  48 <= code d <= 58 -> lower_char c = lower_char d -> c = d.
Proof.
  intros Hd H. apply (f_equal code) in H. rewrite !code_lower_char in H.
  apply code_inj.
  destruct (isupper c) eqn:Ec, (isupper d) eqn:Ed; unfold isupper in *; lia.
Qed.

(** Breaks a membership in the matches of a directive down to the
    characters that were read. *)
Ltac invert_regex H :=
  repeat match type of H with
    | In _ (alt _ _ _) => apply in_alt in H; destruct H as [H|H]
    | In _ (cat _ _ _) =>
        let g1 := fresh "g" in let r1 := fresh "r" in let g2 := fresh "g" in
        let H1 := fresh "H" in let H2 := fresh "H" in
        apply in_cat in H; destruct H as (g1 & r1 & g2 & H1 & H2 & ->);
        invert_regex H1; invert_regex H2
    | In _ (lit _ _) =>
        let c := fresh "c" in let E := fresh "E" in
        apply in_lit in H; destruct H as (c & -> & -> & E)
    | In _ (digit _) => unfold digit in H
    | In _ (one (in_range _ _) _) =>
        let c := fresh "c" in let E := fresh "E" in
        apply in_digit in H; destruct H as (c & -> & -> & E)
    end.

Lemma int_digits_1 (c : ascii) :
  int_digits (String c EmptyString) = code c - 48.
Proof. unfold int_digits, digit_val. lia. Qed.

Lemma int_digits_2 (c d : ascii) :
  int_digits (String c EmptyString ++ String d EmptyString)
  = 10 * (code c - 48) + (code d - 48).
Proof. cbn. unfold int_digits, digit_val. lia. Qed.

(** Replaces the code of every character constant by its value. *)
Ltac eval_codes :=
  repeat match goal with
    | |- context [code (Ascii ?a ?b ?c ?d ?e ?f ?g ?h)] =>
        let v := eval vm_compute in (code (Ascii a b c d e f g h)) in
        change (code (Ascii a b c d e f g h)) with v
    | H : context [code (Ascii ?a ?b ?c ?d ?e ?f ?g ?h)] |- _ =>
        let v := eval vm_compute in (code (Ascii a b c d e f g h)) in
        change (code (Ascii a b c d e f g h)) with v in H
    end.

Ltac digits_bound :=
  rewrite ?int_digits_1, ?int_digits_2;
  repeat match goal with
    | E : lower_char _ = lower_char _ |- _ =>
        apply lit_digit in E; [subst|eval_codes; lia]
    end;
  eval_codes; lia.

Lemma regex_H_bound (s g r : string) :
  In (g, r) (directive_regex dH s) -> 0 <= int_digits g <= 23.
Proof. cbn [directive_regex]. intros H. invert_regex H; digits_bound. Qed.

Lemma regex_I_bound (s g r : string) :
  In (g, r) (directive_regex dI s) -> 1 <= int_digits g <= 12.
Proof. cbn [directive_regex]. intros H. invert_regex H; digits_bound. Qed.

Lemma regex_M_bound (s g r : string) :
  In (g, r) (directive_regex dM s) -> 0 <= int_digits g <= 59.
Proof. cbn [directive_regex]. intros H. invert_regex H; digits_bound. Qed.

Lemma regex_p_marker (s g r : string) :
  In (g, r) (directive_regex dp s) -> lower g = "am" \/ lower g = "pm".
Proof.
  cbn [directive_regex]. intros H. invert_regex H; cbn.
  - left. now rewrite E, E0.
  - right. now rewrite E, E0.
Qed.

End Regex.

(** ** Matching a whole format *)

Section Matches.

Lemma hd_error_In {A : Type} (l : list A) (x : A) :
  hd_error l = Some x -> In x l.
Proof. destruct l; cbn; [discriminate|]. intros [= ->]. now left. Qed.

Lemma in_matches_nil (s : string) (m : found_dict * string) :
  In m (matches [] s) -> m = ([], s).
Proof. cbn. intros [H|[]]. now symmetry. Qed.

Lemma in_matches_Lit (c : ascii) (items : list item) (s : string)
      (m : found_dict * string) :
  In m (matches (Lit c :: items) s) ->
  exists g r, In (g, r) (lit c s) /\ In m (matches items r).
Proof.
  cbn [matches]. rewrite in_flat_map. intros [[g r] [H1 H2]]. eauto.
Qed.

Lemma in_matches_Dir (d : directive) (items : list item) (s : string)
      (found : found_dict) (rest : string) :
  In (found, rest) (matches (Dir d :: items) s) ->
  exists g r found',
    In (g, r) (directive_regex d s) /\ In (found', rest) (matches items r)
    /\ found = (d, g) :: found'.
Proof.
  cbn [matches]. rewrite in_flat_map. intros [[g r] [H1 H2]].
  rewrite in_map_iff in H2. destruct H2 as [[found' rest'] [E H2]].
  cbn in E. inversion E; subst. eauto 6.
Qed.

Lemma to_datetime_raise (val fmt : string) :
  to_datetime val fmt errors_raise = strptime val fmt.
Proof. unfold to_datetime. now destruct (strptime val fmt). Qed.

Lemma to_datetime_coerce (val fmt : string) :
  to_datetime val fmt errors_coerce
  = match strptime val fmt with
    | Ok t => Ok t
    | Raise _ => Ok None
    end.
Proof. unfold to_datetime. now destruct (strptime val fmt). Qed.

Lemma strptime_found (val fmt : string) (t : timestamp) :
  strptime val fmt = Ok (Some t) ->
  exists items found,
    parse_format fmt = Some items
    /\ In (found, EmptyString) (matches items val)
    /\ t = to_timestamp (fields_of found).
Proof.
  unfold strptime. destruct (parse_format fmt) as [items|]; [|discriminate].
  destruct ((val =? "")%string || is_nat_string val); [discriminate|].
  destruct (re_match items val) as [[found rest]|] eqn:E; [|discriminate].
  destruct (rest =? "")%string eqn:R; [|discriminate].
  apply String.eqb_eq in R. subst rest. intros [= <-].
  exists items, found. repeat split. now apply hd_error_In.
Qed.

(** What the 12-hour format can produce. *)
Lemma strptime_12h_bounds (val : string) (t : timestamp) :
  strptime val "%I:%M%p" = Ok (Some t) ->
  exists h m, 0 <= h <= 23 /\ 0 <= m <= 59 /\ t = (h * 60 + m) * 60.
Proof.
  intros H. apply strptime_found in H.
  destruct H as (items & found & P & H & ->).
  vm_compute in P. injection P as <-.
  apply in_matches_Dir in H. destruct H as (gI & r1 & f1 & HI & H & ->).
  apply in_matches_Lit in H. destruct H as (gc & r2 & _ & H).
  apply in_matches_Dir in H. destruct H as (gM & r3 & f2 & HM & H & ->).
  apply in_matches_Dir in H. destruct H as (gp & r4 & f3 & Hp & H & ->).
  apply in_matches_nil in H. injection H as -> _.
  apply regex_I_bound in HI. apply regex_M_bound in HM.
  apply regex_p_marker in Hp.
  unfold fields_of, to_timestamp.
  cbn [fold_left set_field get directive_eqb hour minute second].
  destruct Hp as [-> | ->]; cbn [String.eqb Ascii.eqb Bool.eqb orb].
  - destruct (int_digits gI =? 12) eqn:E.
    + exists 0, (int_digits gM). lia.
    + exists (int_digits gI), (int_digits gM). lia.
  - destruct (int_digits gI =? 12) eqn:E.
    + exists (int_digits gI), (int_digits gM). lia.
    + exists (int_digits gI + 12), (int_digits gM). lia.
Qed.

(** What the 24-hour format can produce. *)
Lemma strptime_24h_bounds (val : string) (t : timestamp) :
  strptime val "%H:%M" = Ok (Some t) ->
  exists h m, 0 <= h <= 23 /\ 0 <= m <= 59 /\ t = (h * 60 + m) * 60.
Proof.
  intros H. apply strptime_found in H.
  destruct H as (items & found & P & H & ->).
  vm_compute in P. injection P as <-.
  apply in_matches_Dir in H. destruct H as (gH & r1 & f1 & HH & H & ->).
  apply in_matches_Lit in H. destruct H as (gc & r2 & _ & H).
  apply in_matches_Dir in H. destruct H as (gM & r3 & f2 & HM & H & ->).
  apply in_matches_nil in H. injection H as -> _.
  apply regex_H_bound in HH. apply regex_M_bound in HM.
  unfold fields_of, to_timestamp.
  cbn [fold_left set_field get directive_eqb hour minute second].
  exists (int_digits gH), (int_digits gM). lia.
Qed.

End Matches.

Section Strftime.

Variables h m : Z.
Hypothesis Hh : 0 <= h <= 23.
Hypothesis Hm : 0 <= m <= 59.

Lemma ts_hour_of : ts_hour ((h * 60 + m) * 60) = h.
Proof. unfold ts_hour. lia. Qed.

Lemma ts_minute_of : ts_minute ((h * 60 + m) * 60) = m.
Proof. unfold ts_minute. lia. Qed.

Lemma ts_second_of : ts_second ((h * 60 + m) * 60) = 0.
Proof. unfold ts_second. lia. Qed.

Lemma strftime_hms :
  strftime (Some ((h * 60 + m) * 60)) "%H:%M:%S" = Ok (hms h m 0).
Proof.
  unfold strftime.
  change (parse_format "%H:%M:%S")
    with (Some [Dir dH; Lit ":"; Dir dM; Lit ":"; Dir dS]).
  cbn [map render String.concat].
  now rewrite ts_hour_of, ts_minute_of, ts_second_of.
Qed.

End Strftime.

Lemma parse_then_format (val fmt : string) :
  (forall t, strptime val fmt = Ok (Some t) ->
             exists h m, 0 <= h <= 23 /\ 0 <= m <= 59 /\ t = (h * 60 + m) * 60) ->
  try_except (t <- to_datetime val fmt errors_raise ;; strftime t "%H:%M:%S")
             "Unknown" = Ok "Unknown"
  \/ exists h m, 0 <= h <= 23 /\ 0 <= m <= 59
       /\ strptime val fmt = Ok (Some ((h * 60 + m) * 60))
       /\ try_except (t <- to_datetime val fmt errors_raise ;; strftime t "%H:%M:%S")
                     "Unknown" = Ok (hms h m 0).
Proof.
  intros B. rewrite to_datetime_raise.
  destruct (strptime val fmt) as [[t|]|e] eqn:E; cbn [bind try_except].
  - destruct (B t eq_refl) as (h & m & Hh & Hm & ->).
    right. exists h, m. rewrite strftime_hms by assumption. auto.
  - now left.
  - now left.
Qed.

Lemma standardize_time_str (s : string) :
  standardize_time (PyStr s)
  = let time_str := lower (strip s) in
    if contains "am" time_str || contains "pm" time_str then
      try_except (t <- to_datetime time_str "%I:%M%p" errors_raise ;;
                  strftime t "%H:%M:%S") "Unknown"
    else if contains "-" time_str then Ok "Unknown"
    else
      try_except (t <- to_datetime time_str "%H:%M" errors_raise ;;
                  strftime t "%H:%M:%S") "Unknown".
Proof.
  unfold standardize_time. cbn [isnull call_strip bind].
  cbv zeta.
  destruct (contains "am" (lower (strip s)) || contains "pm" (lower (strip s)));
    [reflexivity|].
  destruct (contains "-" (lower (strip s))); reflexivity.
Qed.

Lemma standardize_time_not_str (v : pyval) :
  (forall s, v <> PyStr s) -> standardize_time v = Ok "Unknown".
Proof.
  intros H. destruct v; try reflexivity. now destruct (H s).
Qed.

(** ** What [standardize_time] returns *)

Lemma standardize_time_result (v : pyval) :
  standardize_time v = Ok "Unknown"
  \/ exists h m, 0 <= h <= 23 /\ 0 <= m <= 59
                 /\ standardize_time v = Ok (hms h m 0).
Proof.
  destruct v as [| | |s| | | | |]; try (now left).
  rewrite standardize_time_str. cbv zeta.
  destruct (contains "am" _ || contains "pm" _).
  - destruct (parse_then_format (lower (strip s)) "%I:%M%p")
      as [E|(h & m & Hh & Hm & _ & E)]; [apply strptime_12h_bounds|now left|].
    right. now exists h, m.
  - destruct (contains "-" _); [now left|].
    destruct (parse_then_format (lower (strip s)) "%H:%M")
      as [E|(h & m & Hh & Hm & _ & E)]; [apply strptime_24h_bounds|now left|].
    right. now exists h, m.
Qed.

(** ** Checks over every minute of the day *)

Section Enumeration.

Lemma in_upto (n : nat) (z : Z) : 0 <= z < Z.of_nat n -> In z (upto n).
Proof.
  intros H. unfold upto. apply in_map_iff. exists (Z.to_nat z).
  split; [lia|]. apply in_seq. lia.
Qed.

Lemma forall_upto2 (p : Z -> Z -> bool) (a b : nat) :
  forallb (fun h => forallb (p h) (upto b)) (upto a) = true ->
  forall h m, 0 <= h < Z.of_nat a -> 0 <= m < Z.of_nat b -> p h m = true.
Proof.
  intros H h m Hh Hm. rewrite forallb_forall in H.
  specialize (H h (in_upto _ _ Hh)). rewrite forallb_forall in H.
  exact (H m (in_upto _ _ Hm)).
Qed.

Lemma result_is_Z (r : result Z) (a : Z) : result_is Z.eqb r a = true -> r = Ok a.
Proof. destruct r; cbn; [|discriminate]. intros H. f_equal. lia. Qed.

Lemma result_is_string (r : result string) (a : string) :
  result_is String.eqb r a = true -> r = Ok a.
Proof.
  destruct r; cbn; [|discriminate]. intros H. f_equal.
  now apply String.eqb_eq.
Qed.

(** The hour read back from [HH:MM:00] is [HH]. *)
Lemma incident_hour_hms (h m : Z) :
  0 <= h <= 23 -> 0 <= m <= 59 -> incident_hour (hms h m 0) = Ok h.
Proof.
  intros Hh Hm. apply result_is_Z.
  apply (forall_upto2 (fun h m => result_is Z.eqb (incident_hour (hms h m 0)) h)
                      24 60); [vm_compute; reflexivity|lia|lia].
Qed.


(** The 24-hour path refuses [HH:MM:00]: the seconds are left over. *)
Lemma standardize_time_hms (h m : Z) :
  0 <= h <= 23 -> 0 <= m <= 59 ->
  standardize_time (PyStr (hms h m 0)) = Ok "Unknown".
Proof.
  intros Hh Hm. apply result_is_string.
  apply (forall_upto2
           (fun h m => result_is String.eqb
                         (standardize_time (PyStr (hms h m 0))) "Unknown")
           24 60); [vm_compute; reflexivity|lia|lia].
Qed.

Lemma standardize_time_twelve_hour (h m : Z) (pm : bool) :
  1 <= h <= 12 -> 0 <= m <= 59 ->
  standardize_time (PyStr (twelve_hour h m pm)) = Ok (hms (hour24 h pm) m 0).
Proof.
  intros Hh Hm. apply result_is_string.
  pose (p := fun pm h m =>
               result_is String.eqb
                 (standardize_time (PyStr (twelve_hour (h + 1) m pm)))
                 (hms (hour24 (h + 1) pm) m 0)).
  replace h with ((h - 1) + 1) by lia.
  change (p pm (h - 1) m = true).
  destruct pm; apply (forall_upto2 _ 12 60); try lia;
    vm_compute; reflexivity.
Qed.

End Enumeration.

(** ** The time normalizer *)

(** C1: [standardize_time] gives [Unknown] for a missing value and for the
    empty string, reads [2:30pm] as [14:30:00] and [14:05] as [14:05:00],
    gives [Unknown] for [9-10] and [25:99] and for every string that, once
    trimmed and lower-cased, has a hyphen and neither [am] nor [pm]; the
    case of the letters of the input does not matter. *)
Theorem C1_standardize_time_cases :
  standardize_time PyNone = Ok "Unknown"
  /\ standardize_time PyNaN = Ok "Unknown"
  /\ standardize_time (PyStr "") = Ok "Unknown"
  /\ standardize_time (PyStr "2:30pm") = Ok "14:30:00"
  /\ standardize_time (PyStr "14:05") = Ok "14:05:00"
  /\ standardize_time (PyStr "9-10") = Ok "Unknown"
  /\ standardize_time (PyStr "25:99") = Ok "Unknown"
  /\ (forall s,
        contains "-" (lower (strip s)) = true ->
        contains "am" (lower (strip s)) = false ->
        contains "pm" (lower (strip s)) = false ->
        standardize_time (PyStr s) = Ok "Unknown")
  /\ standardize_time (PyStr "2:30PM") = Ok "14:30:00"
  /\ standardize_time (PyStr "2:30Pm") = Ok "14:30:00"
  /\ (forall s, standardize_time (PyStr (lower s)) = standardize_time (PyStr s)).
Proof.
  do 7 (split; [vm_compute; reflexivity|]).
  split; [|split; [vm_compute; reflexivity|split; [vm_compute; reflexivity|]]].
  - intros s Hh Ha Hp. rewrite standardize_time_str. cbv zeta.
    now rewrite Ha, Hp, Hh.
  - intros s. rewrite !standardize_time_str.
    now rewrite <- lower_strip, lower_idem.
Qed.

Lemma C1_hyphen_witness :
  contains "-" (lower (strip " 10-11 ")) = true
  /\ standardize_time (PyStr " 10-11 ") = Ok "Unknown".
Proof.
  split; [vm_compute; reflexivity|].
  apply (proj1 (proj2 (proj2 (proj2 (proj2 (proj2 (proj2 (proj2
           C1_standardize_time_cases)))))))).
  all: vm_compute; reflexivity.
Defined.


(** C10: a value that is neither missing nor a string has no [strip]; the
    handler swallows the error and the result is [Unknown]. *)
Theorem C10_non_string_unknown (v : pyval) :
  isnull v = false ->
  (forall s, v <> PyStr s) ->
  call_strip v = Raise AttributeError /\ standardize_time v = Ok "Unknown".
Proof.
  intros _ H. destruct v; try (split; reflexivity). now destruct (H s).
Qed.

Lemma C10_time_cell_witness :
  call_strip (PyTime 14 30 0) = Raise AttributeError
  /\ standardize_time (PyTime 14 30 0) = Ok "Unknown".
Proof.
  apply C10_non_string_unknown; [reflexivity|discriminate].
Defined.

(** C6, as the program behaves: a 12-hour input [H:MMam] or [H:MMpm] is
    standardized to the 24-hour text [HH:MM:00], and standardizing that
    text again gives [Unknown], since the 24-hour format stops at the
    minutes. *)
Theorem C6_twelve_hour_then_unknown (h m : Z) (pm : bool) :
  1 <= h <= 12 -> 0 <= m <= 59 ->
  standardize_time (PyStr (twelve_hour h m pm)) = Ok (hms (hour24 h pm) m 0)
  /\ (s <- standardize_time (PyStr (twelve_hour h m pm)) ;;
      standardize_time (PyStr s)) = Ok "Unknown".
Proof.
  intros Hh Hm. rewrite standardize_time_twelve_hour by assumption.
  split; [reflexivity|]. cbn [bind].
  apply standardize_time_hms; [|assumption].
  unfold hour24. destruct pm, (h =? 12) eqn:E; lia.
Qed.

Lemma C6_twelve_hour_witness :
  standardize_time (PyStr "2:30pm") = Ok "14:30:00"
  /\ (s <- standardize_time (PyStr "2:30pm") ;; standardize_time (PyStr s))
     = Ok "Unknown".
Proof.
  apply (C6_twelve_hour_then_unknown 2 30 true); lia.
Defined.

(** C6, as the claim has it, fails at [2:30pm]: the second pass does not
    give [14:30:00] back. *)
Lemma C6_not_idempotent :
  (s <- standardize_time (PyStr "2:30pm") ;; standardize_time (PyStr s))
  <> standardize_time (PyStr "2:30pm").
Proof. vm_compute. discriminate. Qed.

(** ** The derived columns *)

Section Derivation.

Lemma derive_unknown (r : raw_row) :
  standardize_time (raw_Incident_Time r) = Ok "Unknown" ->
  derive r = Ok (mkRow (raw_Date r) (raw_Incident_Time r) (raw_Incident_Type r)
                       "Unknown" (-1) (day_name (raw_Date r)) "Unknown").
Proof.
  intros E. unfold derive. rewrite E. cbn [bind].
  replace (incident_hour "Unknown") with (@Ok Z (-1))
    by (vm_compute; reflexivity).
  reflexivity.
Qed.

Lemma derive_hms (r : raw_row) (h m : Z) :
  0 <= h <= 23 -> 0 <= m <= 59 ->
  standardize_time (raw_Incident_Time r) = Ok (hms h m 0) ->
  derive r = Ok (mkRow (raw_Date r) (raw_Incident_Time r) (raw_Incident_Type r)
                       (hms h m 0) h (day_name (raw_Date r)) (time_range h)).
Proof.
  intros Hh Hm E. unfold derive. rewrite E. cbn [bind].
  now rewrite incident_hour_hms.
Qed.


Lemma mapM_total {A B : Type} (f : A -> result B) (P : A -> B -> Prop)
      (l : list A) :
  (forall a, exists b, f a = Ok b /\ P a b) ->
  exists l', mapM f l = Ok l' /\ Forall2 P l l'.
Proof.
  intros H. induction l as [|a l IH]; cbn [mapM].
  - exists []. split; [reflexivity|constructor].
  - destruct (H a) as (b & E & Pb). destruct IH as (l' & El & Pl).
    exists (b :: l'). rewrite E, El. split; [reflexivity|now constructor].
Qed.

End Derivation.


(** C2: on the hours from -1 to 23, [time_range] returns one of the eight
    labels, the one of the interval the hour lies in. *)
Theorem C2_time_range_partition (h : Z) :
  -1 <= h <= 23 ->
  In (time_range h) time_range_labels
  /\ (h < 0 -> time_range h = "Unknown")
  /\ (0 <= h < 6 -> time_range h = "12am-6am")
  /\ (6 <= h < 9 -> time_range h = "6am-9am")
  /\ (9 <= h < 12 -> time_range h = "9am-12pm")
  /\ (12 <= h < 15 -> time_range h = "12pm-3pm")
  /\ (15 <= h < 18 -> time_range h = "3pm-6pm")
  /\ (18 <= h < 21 -> time_range h = "6pm-9pm")
  /\ (21 <= h < 24 -> time_range h = "9pm-12am")
  /\ NoDup time_range_labels /\ List.length time_range_labels = 8%nat.
Proof.
  intros Hh. unfold time_range.
  destruct (h <? 0) eqn:E0;
    [|destruct (h <? 6) eqn:E1;
      [|destruct (h <? 9) eqn:E2;
        [|destruct (h <? 12) eqn:E3;
          [|destruct (h <? 15) eqn:E4;
            [|destruct (h <? 18) eqn:E5;
              [|destruct (h <? 21) eqn:E6]]]]]].
  all: repeat match goal with
         | |- context [?a <=? ?b] =>
             replace (a <=? b) with true by (symmetry; apply Z.leb_le; lia)
         end.
  all: cbn [andb].
  all: repeat split; try (intros; lia); try reflexivity.
  all: try (cbn; tauto).
  all: repeat constructor; cbn; intuition discriminate.
Qed.

Lemma C2_time_range_witness :
  In (time_range 14) time_range_labels /\ time_range 14 = "12pm-3pm".
Proof.
  destruct (C2_time_range_partition 14 ltac:(lia))
    as (H & _ & _ & _ & _ & H4 & _).
  split; [exact H|apply H4; lia].
Defined.

(** ** The filter and the figures *)

Section Counting.

Lemma total_tally (k : Z) (acc : list (Z * nat)) :
  total (tally k acc) = S (total acc).
Proof.
  induction acc as [|[k' n] acc IH]; cbn [tally]; [reflexivity|].
  destruct (k <? k'); [reflexivity|].
  destruct (k =? k'); cbn [total fold_right snd] in *; [reflexivity|].
  fold (total (tally k acc)). fold (total acc). rewrite IH. lia.
Qed.

Lemma total_bump (x : string) (acc : list (string * nat)) :
  total (bump x acc) = S (total acc).
Proof.
  induction acc as [|[x' n] acc IH]; cbn [bump]; [reflexivity|].
  destruct (x' =? x)%string; cbn [total fold_right snd] in *; [reflexivity|].
  fold (total (bump x acc)). fold (total acc). rewrite IH. lia.
Qed.

Lemma total_groupby_from (keys : list Z) (acc : list (Z * nat)) :
  total (fold_left (fun acc k => tally k acc) keys acc)
  = (List.length keys + total acc)%nat.
Proof.
  revert acc. induction keys as [|k keys IH]; intros acc; cbn [fold_left];
    [reflexivity|].
  rewrite IH, total_tally. cbn [List.length]. lia.
Qed.

Lemma total_groupby_size (keys : list Z) :
  total (groupby_size keys) = List.length keys.
Proof.
  unfold groupby_size. rewrite total_groupby_from. cbn. lia.
Qed.

Lemma total_count_values_from (xs : list (option string)) (acc : list (string * nat)) :
  total (fold_left (fun acc x => match x with
                                 | Some x => bump x acc
                                 | None => acc
                                 end) xs acc)
  = (present xs + total acc)%nat.
Proof.
  revert acc. induction xs as [|[x|] xs IH]; intros acc; cbn [fold_left];
    [reflexivity| |].
  - rewrite IH, total_bump. unfold present. cbn [filter List.length]. lia.
  - rewrite IH. reflexivity.
Qed.

Lemma total_count_values (xs : list (option string)) :
  total (count_values xs) = present xs.
Proof.
  unfold count_values. rewrite total_count_values_from. cbn. lia.
Qed.

Lemma present_all {A : Type} (f : A -> string) (l : list A) :
  present (map (fun a => Some (f a)) l) = List.length l.
Proof.
  unfold present. induction l; cbn; [reflexivity|]. now f_equal.
Qed.

Lemma present_days (df : list row) :
  (present (map Day_of_Week df) + missing_days df)%nat = List.length df.
Proof.
  unfold present, missing_days.
  induction df as [|r df IH]; cbn [map filter List.length]; [reflexivity|].
  destruct (Day_of_Week r); cbn [List.length]; lia.
Qed.

End Counting.

Section Filter.

Lemma filter_idem {A : Type} (f : A -> bool) (l : list A) :
  filter f (filter f l) = filter f l.
Proof.
  induction l as [|a l IH]; cbn [filter]; [reflexivity|].
  destruct (f a) eqn:E; cbn [filter]; [rewrite E, IH|]; auto.
Qed.

Lemma filter_disjoint {A : Type} (f g : A -> bool) (l : list A) :
  (forall a, f a = true -> g a = false) -> filter g (filter f l) = [].
Proof.
  intros H. induction l as [|a l IH]; cbn [filter]; [reflexivity|].
  destruct (f a) eqn:E; cbn [filter]; [rewrite (H a E)|]; exact IH.
Qed.

Lemma filter_none {A : Type} (f : A -> bool) (l : list A) :
  (forall a, In a l -> f a = false) -> filter f l = [].
Proof.
  induction l as [|a l IH]; cbn [filter]; [reflexivity|]. intros H.
  rewrite (H a) by now left. apply IH. intros b Hb. apply H. now right.
Qed.

Lemma filter_length_le {A : Type} (f : A -> bool) (l : list A) :
  (List.length (filter f l) <= List.length l)%nat.
Proof.
  induction l as [|a l IH]; cbn [filter List.length]; [lia|].
  destruct (f a); cbn [List.length]; lia.
Qed.

Lemma type_is_iff (t : string) (r : row) :
  type_is t r = true <-> Incident_Type r = Some t.
Proof.
  unfold type_is. destruct (Incident_Type r) as [t'|].
  - rewrite String.eqb_eq. split; [intros ->; reflexivity|now intros [= ->]].
  - split; discriminate.
Qed.

End Filter.

Section Groups.

Lemma tally_keys (P : Z -> Prop) (k : Z) (acc : list (Z * nat)) :
  P k -> Forall P (map fst acc) -> Forall P (map fst (tally k acc)).
Proof.
  intros Hk. induction acc as [|[k' n] acc IH]; cbn [tally map fst]; intros H.
  - now constructor.
  - inversion H; subst.
    destruct (k <? k'); [|destruct (k =? k')]; cbn [map fst];
      repeat constructor; auto.
Qed.

Lemma tally_increasing (k : Z) (acc : list (Z * nat)) :
  increasing (map fst acc) -> increasing (map fst (tally k acc)).
Proof.
  induction acc as [|[k' n] acc IH]; cbn [tally map fst increasing].
  - intros _. split; constructor.
  - intros [F I]. destruct (k <? k') eqn:L; [|destruct (k =? k') eqn:E];
      cbn [map fst increasing].
    + split; [|now split]. constructor; [lia|].
      eapply Forall_impl; [|exact F]. cbv beta. intros; lia.
    + now split.
    + split; [|now apply IH]. apply tally_keys; [lia|exact F].
Qed.

Lemma count_at_tally (h k : Z) (acc : list (Z * nat)) :
  count_at h (tally k acc)
  = ((if Z.eqb k h then 1 else 0) + count_at h acc)%nat.
Proof.
  induction acc as [|[k' n] acc IH]; cbn [tally count_at].
  - destruct (k =? h); lia.
  - destruct (k <? k') eqn:L; [|destruct (k =? k') eqn:E]; cbn [count_at].
    + destruct (k =? h), (k' =? h); lia.
    + assert (k = k') by lia. subst k'. destruct (k =? h); lia.
    + rewrite IH. destruct (k =? h), (k' =? h); lia.
Qed.

Lemma tally_positive (k : Z) (acc : list (Z * nat)) :
  Forall (fun kn => (1 <= snd kn)%nat) acc ->
  Forall (fun kn => (1 <= snd kn)%nat) (tally k acc).
Proof.
  induction acc as [|[k' n] acc IH]; cbn [tally]; intros H.
  - repeat constructor.
  - inversion H; subst.
    destruct (k <? k'); [|destruct (k =? k')]; repeat constructor; auto;
      cbn in *; lia.
Qed.

Lemma groupby_size_spec (keys : list Z) (acc : list (Z * nat)) (h : Z) :
  increasing (map fst acc) ->
  Forall (fun kn => (1 <= snd kn)%nat) acc ->
  let out := fold_left (fun acc k => tally k acc) keys acc in
  increasing (map fst out)
  /\ Forall (fun kn => (1 <= snd kn)%nat) out
  /\ count_at h out
     = (List.length (filter (fun k => Z.eqb k h) keys) + count_at h acc)%nat.
Proof.
  revert acc. induction keys as [|k keys IH]; intros acc I P; cbn [fold_left].
  - cbn. auto.
  - destruct (IH (tally k acc) (tally_increasing _ _ I) (tally_positive _ _ P))
      as (I' & P' & C).
    cbv zeta. split; [exact I'|]. split; [exact P'|].
    rewrite C, count_at_tally. cbn [filter].
    destruct (k =? h); cbn [List.length]; lia.
Qed.

Lemma filter_map_length {A B : Type} (f : A -> B) (p : B -> bool) (l : list A) :
  List.length (filter p (map f l)) = List.length (filter (fun a => p (f a)) l).
Proof.
  induction l as [|a l IH]; cbn [map filter]; [reflexivity|].
  destruct (p (f a)); cbn [List.length]; now rewrite IH.
Qed.

Lemma bump_labels (x y : string) (acc : list (string * nat)) :
  In y (map fst (bump x acc)) <-> y = x \/ In y (map fst acc).
Proof.
  induction acc as [|[x' n] acc IH]; cbn [bump map fst In].
  - intuition.
  - destruct (x' =? x)%string eqn:E; cbn [map fst In].
    + apply String.eqb_eq in E. subst x'. intuition.
    + rewrite IH. intuition.
Qed.

Lemma bump_nodup (x : string) (acc : list (string * nat)) :
  NoDup (map fst acc) -> NoDup (map fst (bump x acc)).
Proof.
  induction acc as [|[x' n] acc IH]; cbn [bump map fst]; intros H.
  - repeat constructor. intros [].
  - inversion H; subst.
    destruct (x' =? x)%string eqn:E; cbn [map fst]; [exact H|].
    constructor; [|now apply IH].
    rewrite bump_labels. apply String.eqb_neq in E. intuition.
Qed.

Lemma bar_at_bump (y x : string) (acc : list (string * nat)) :
  bar_at y (bump x acc)
  = ((if String.eqb x y then 1 else 0) + bar_at y acc)%nat.
Proof.
  induction acc as [|[x' n] acc IH]; cbn [bump bar_at].
  - destruct (x =? y)%string; lia.
  - destruct (x' =? x)%string eqn:E; cbn [bar_at].
    + apply String.eqb_eq in E. subst x'. destruct (x =? y)%string; lia.
    + rewrite IH. destruct (x =? y)%string, (x' =? y)%string; lia.
Qed.

Lemma bump_positive (x : string) (acc : list (string * nat)) :
  Forall (fun kn => (1 <= snd kn)%nat) acc ->
  Forall (fun kn => (1 <= snd kn)%nat) (bump x acc).
Proof.
  induction acc as [|[x' n] acc IH]; cbn [bump]; intros H.
  - repeat constructor.
  - inversion H; subst.
    destruct (x' =? x)%string; repeat constructor; auto; cbn in *; lia.
Qed.

Lemma count_values_spec (xs : list (option string)) (acc : list (string * nat))
      (y : string) :
  NoDup (map fst acc) ->
  Forall (fun kn => (1 <= snd kn)%nat) acc ->
  let out := fold_left (fun acc x => match x with
                                     | Some x => bump x acc
                                     | None => acc
                                     end) xs acc in
  NoDup (map fst out)
  /\ Forall (fun kn => (1 <= snd kn)%nat) out
  /\ bar_at y out
     = (List.length (filter (is_label y) xs) + bar_at y acc)%nat.
Proof.
  revert acc. induction xs as [|[x|] xs IH]; intros acc N P; cbn [fold_left].
  - cbn. auto.
  - destruct (IH (bump x acc) (bump_nodup _ _ N) (bump_positive _ _ P))
      as (N' & P' & C).
    cbv zeta. split; [exact N'|]. split; [exact P'|].
    rewrite C, bar_at_bump. cbn [filter is_label].
    destruct (x =? y)%string; cbn [List.length]; lia.
  - apply IH; assumption.
Qed.

End Groups.

Section ValueCounts.

Lemma in_insert_by_count (e x : string * nat) (l : list (string * nat)) :
  In x (insert_by_count e l) <-> x = e \/ In x l.
Proof.
  induction l as [|e' l IH]; cbn [insert_by_count In]; [intuition|].
  destruct (snd e' <=? snd e)%nat; cbn [In]; [|rewrite IH]; intuition.
Qed.

Lemma forall_insert_by_count (P : string * nat -> Prop) (e : string * nat)
      (l : list (string * nat)) :
  P e -> Forall P l -> Forall P (insert_by_count e l).
Proof.
  intros He H. apply Forall_forall. intros x Hx.
  apply in_insert_by_count in Hx. destruct Hx as [->|Hx]; [exact He|].
  rewrite Forall_forall in H. now apply H.
Qed.

Lemma descending_insert (e : string * nat) (l : list (string * nat)) :
  descending l -> descending (insert_by_count e l).
Proof.
  induction l as [|e' l IH]; cbn [insert_by_count descending].
  - intros _. split; constructor.
  - intros [F D]. destruct (Nat.leb_spec (snd e') (snd e)) as [L|L];
      cbn [descending].
    + split; [|now split]. constructor; [exact L|].
      eapply Forall_impl; [|exact F]. cbv beta. intros x Hx. lia.
    + split; [|now apply IH]. apply forall_insert_by_count; [lia|exact F].
Qed.

Lemma nodup_insert_by_count (e : string * nat) (l : list (string * nat)) :
  ~ In (fst e) (map fst l) -> NoDup (map fst l) ->
  NoDup (map fst (insert_by_count e l)).
Proof.
  induction l as [|e' l IH]; cbn [insert_by_count map]; intros N D.
  - repeat constructor. exact N.
  - destruct (snd e' <=? snd e)%nat; cbn [map]; [now constructor|].
    inversion D; subst. cbn [In] in N. constructor.
    + rewrite in_map_iff. intros (x & E & Hx).
      apply in_insert_by_count in Hx.
      destruct Hx as [->|Hx]; [apply N; left; now symmetry|].
      apply H1. rewrite in_map_iff. eauto.
    + apply IH; [tauto|assumption].
Qed.

Lemma bar_at_insert (y : string) (e : string * nat) (l : list (string * nat)) :
  bar_at y (insert_by_count e l)
  = ((if String.eqb (fst e) y then snd e else 0) + bar_at y l)%nat.
Proof.
  destruct e as [x n].
  induction l as [|[x' n'] l IH]; cbn [insert_by_count bar_at fst snd];
    [reflexivity|].
  destruct (n' <=? n)%nat; cbn [bar_at]; [reflexivity|].
  rewrite IH. cbn [fst snd]. lia.
Qed.

Lemma total_insert (e : string * nat) (l : list (string * nat)) :
  total (insert_by_count e l) = (snd e + total l)%nat.
Proof.
  induction l as [|e' l IH]; cbn [insert_by_count]; [reflexivity|].
  destruct (snd e' <=? snd e)%nat; [reflexivity|].
  cbn [total fold_right] in *. fold (total (insert_by_count e l)).
  fold (total l). rewrite IH. lia.
Qed.

Lemma sort_by_count_spec (l : list (string * nat)) (y : string) :
  NoDup (map fst l) ->
  descending (sort_by_count l)
  /\ NoDup (map fst (sort_by_count l))
  /\ (forall x, In x (sort_by_count l) <-> In x l)
  /\ bar_at y (sort_by_count l) = bar_at y l
  /\ total (sort_by_count l) = total l.
Proof.
  induction l as [|[x n] l IH]; cbn [sort_by_count fold_right map];
    intros D.
  - repeat split; try constructor; tauto.
  - inversion D; subst. destruct (IH H2) as (S & N & I & B & T).
    fold (sort_by_count l). split; [now apply descending_insert|].
    split; [|split; [|split]].
    + apply nodup_insert_by_count; [|exact N]. cbn [fst].
      rewrite in_map_iff. intros (e & E & He). apply I in He.
      apply H1. rewrite in_map_iff. eauto.
    + intros e. rewrite in_insert_by_count, I. cbn [In]. intuition.
    + rewrite bar_at_insert, B. reflexivity.
    + rewrite total_insert, T. reflexivity.
Qed.

(** What [value_counts] returns. *)
Lemma value_counts_spec (xs : list (option string)) (y : string) :
  descending (value_counts xs)
  /\ NoDup (map fst (value_counts xs))
  /\ Forall (fun kn => (1 <= snd kn)%nat) (value_counts xs)
  /\ bar_at y (value_counts xs) = List.length (filter (is_label y) xs)
  /\ total (value_counts xs) = present xs.
Proof.
  unfold value_counts.
  destruct (count_values_spec xs [] y) as (N & P & C);
    [constructor|constructor|].
  cbv zeta in *. fold (count_values xs) in *.
  destruct (sort_by_count_spec (count_values xs) y N) as (S & N' & I & B & T).
  split; [exact S|]. split; [exact N'|]. split; [|split].
  - rewrite Forall_forall in *. intros e He. apply P. now apply I.
  - rewrite B, C. cbn [bar_at]. lia.
  - rewrite T. apply total_count_values.
Qed.

Lemma float_column (df : list row) :
  type_column_is_float df = true
  <-> df <> [] /\ forall r, In r df -> Incident_Type r = None.
Proof.
  destruct df as [|r0 df]; cbn [type_column_is_float].
  - split; [discriminate|]. now intros [H _].
  - rewrite forallb_forall. split.
    + intros H. split; [discriminate|]. intros r Hr. specialize (H r Hr).
      now destruct (Incident_Type r).
    + intros [_ H] r Hr. now rewrite (H r Hr).
Qed.

Lemma typed_column (df : list row) (r : row) (t : string) :
  In r df -> Incident_Type r = Some t -> type_column_is_float df = false.
Proof.
  intros Hr E. destruct (type_column_is_float df) eqn:F; [|reflexivity].
  apply float_column in F. destruct F as [_ F].
  rewrite (F r Hr) in E. discriminate.
Qed.

Lemma update_graphs_returns (df : list row) (selected_type : string) :
  type_column_is_float df = false ->
  update_graphs df selected_type = Ok (figures_of (filtered_df df selected_type)).
Proof. intros F. unfold update_graphs, str_accessor. now rewrite F. Qed.

Lemma update_graphs_raises (df : list row) (selected_type : string) :
  type_column_is_float df = true ->
  update_graphs df selected_type = Raise AttributeError.
Proof. intros F. unfold update_graphs, str_accessor. now rewrite F. Qed.

Lemma update_graphs_figures (df : list row) (selected_type : string)
      (figs : figures) :
  update_graphs df selected_type = Ok figs ->
  type_column_is_float df = false
  /\ figs = figures_of (filtered_df df selected_type).
Proof.
  destruct (type_column_is_float df) eqn:F.
  - rewrite update_graphs_raises by exact F. discriminate.
  - rewrite update_graphs_returns by exact F. now intros [= <-].
Qed.

Lemma filtered_column (df : list row) (selected_type : string) :
  type_column_is_float df = false ->
  type_column_is_float (filtered_df df selected_type) = false.
Proof.
  intros F. unfold filtered_df.
  destruct (negb (selected_type =? "All")%string); [|exact F].
  destruct (filter (type_is selected_type) df) as [|r l] eqn:E; [reflexivity|].
  assert (I : In r (filter (type_is selected_type) df)) by (rewrite E; now left).
  apply filter_In in I. destruct I as [_ I]. apply type_is_iff in I.
  apply (typed_column _ r selected_type); [now left|exact I].
Qed.

End ValueCounts.

(** C9: for every set of rows the counts by hour add up to the number of
    rows, with one count per hour that occurs, -1 among them, and so do
    the counts by time range; the counts by day of week add up to the
    rows that have a day, which is less when a date did not parse.
    Whenever [update_graphs] returns, its hour counts and the two columns
    it hands to the histograms are those of the filtered rows. *)
Theorem C9_group_counts_sum (rows : list row) :
  let by_hour := groupby_size (map Incident_Hour rows) in
  let by_range := count_by_label (map (fun r => Some (Time_Range r)) rows) in
  let by_day := count_by_label (map Day_of_Week rows) in
  total by_hour = List.length rows
  /\ increasing (map fst by_hour)
  /\ (forall h, count_at h by_hour = rows_at_hour h rows)
  /\ total by_range = List.length rows
  /\ NoDup (map fst by_range)
  /\ (forall l, bar_at l by_range = rows_in_range l rows)
  /\ (total by_day + missing_days rows)%nat = List.length rows
  /\ NoDup (map fst by_day)
  /\ (forall d, bar_at d by_day = rows_on_day d rows)
  /\ (forall df selected_type,
        rows = filtered_df df selected_type ->
        type_column_is_float df = false ->
        exists figs,
          update_graphs df selected_type = Ok figs
          /\ total_incidents figs = List.length rows
          /\ hour_fig figs = by_hour
          /\ count_by_label (map Some (time_range_fig figs)) = by_range
          /\ count_by_label (day_fig figs) = by_day)
  /\ (exists raw df figs,
        preprocess raw = Ok df
        /\ update_graphs df "All" = Ok figs
        /\ hour_fig figs = [(-1, 1%nat); (8, 1%nat)]
        /\ total (hour_fig figs) = total_incidents figs
        /\ (total (count_by_label (day_fig figs)) < total_incidents figs)%nat).
Proof.
  cbv zeta. unfold count_by_label.
  destruct (groupby_size_spec (map Incident_Hour rows) [] 0)
    as (I & _ & _); [exact I|constructor|]. cbv zeta in I.
  destruct (count_values_spec (map (fun r => Some (Time_Range r)) rows) [] "")
    as (N1 & _ & _); [constructor|constructor|]. cbv zeta in N1.
  destruct (count_values_spec (map Day_of_Week rows) [] "")
    as (N2 & _ & _); [constructor|constructor|]. cbv zeta in N2.
  split; [rewrite total_groupby_size; apply length_map|].
  split; [exact I|].
  split.
  { intros h. unfold groupby_size.
    destruct (groupby_size_spec (map Incident_Hour rows) [] h)
      as (_ & _ & C); [exact Logic.I|constructor|].
    cbv zeta in C. rewrite C, filter_map_length. cbn [count_at].
    now rewrite Nat.add_0_r. }
  split; [rewrite total_count_values, present_all; reflexivity|].
  split; [exact N1|].
  split.
  { intros l. unfold count_values.
    destruct (count_values_spec (map (fun r => Some (Time_Range r)) rows) [] l)
      as (_ & _ & C); [constructor|constructor|].
    cbv zeta in C. rewrite C, filter_map_length. cbn [bar_at].
    now rewrite Nat.add_0_r. }
  split; [rewrite total_count_values; apply present_days|].
  split; [exact N2|].
  split.
  { intros d. unfold count_values.
    destruct (count_values_spec (map Day_of_Week rows) [] d)
      as (_ & _ & C); [constructor|constructor|].
    cbv zeta in C. rewrite C, filter_map_length. cbn [bar_at].
    now rewrite Nat.add_0_r. }
  split.
  { intros df selected_type -> F. eexists.
    split; [now apply update_graphs_returns|].
    unfold figures_of.
    cbn [total_incidents hour_fig time_range_fig day_fig].
    rewrite map_map. repeat split. }
  exists [mkRaw None (PyStr "lunch-break") (Some "Theft");
          mkRaw (Some 4) (PyStr "08:30") (Some "Vandalism")].
  do 2 eexists. split; [vm_compute; reflexivity|].
  split; [vm_compute; reflexivity|].
  cbn [hour_fig total_incidents day_fig].
  split; [reflexivity|]. split; [reflexivity|]. vm_compute. lia.
Qed.

Lemma C9_group_counts_witness :
  exists figs,
    update_graphs
      [mkRow None PyNone (Some "Theft") "Unknown" (-1) None "Unknown";
       mkRow (Some 4) (PyStr "08:30") None "08:30:00" 8 (Some "Monday")
             "6am-9am"] "All" = Ok figs
    /\ total_incidents figs = 2%nat
    /\ hour_fig figs = [(-1, 1%nat); (8, 1%nat)]
    /\ count_by_label (map Some (time_range_fig figs))
       = [("Unknown", 1%nat); ("6am-9am", 1%nat)]
    /\ count_by_label (day_fig figs) = [("Monday", 1%nat)].
Proof.
  destruct (proj1 (proj2 (proj2 (proj2 (proj2 (proj2 (proj2 (proj2 (proj2 (proj2
              (C9_group_counts_sum
                 [mkRow None PyNone (Some "Theft") "Unknown" (-1) None "Unknown";
                  mkRow (Some 4) (PyStr "08:30") None "08:30:00" 8
                        (Some "Monday") "6am-9am"]))))))))))
              _ "All" eq_refl eq_refl)
    as (figs & E & T & H & R & D).
  exists figs. rewrite T, H, R, D. split; [exact E|].
  repeat split.
Defined.

(** C3: the selection [All] keeps the frame as it is; any other selection
    keeps, in their order, exactly the rows whose incident type is that
    very string. *)
Theorem C3_filter_exact (df : list row) (t : string) :
  filtered_df df "All" = df
  /\ (t <> "All" ->
      filtered_df df t = filter (type_is t) df
      /\ (forall r, type_is t r = true <-> Incident_Type r = Some t)
      /\ (forall r, In r (filtered_df df t)
                    <-> In r df /\ Incident_Type r = Some t)).
Proof.
  split; [reflexivity|]. intros Ht.
  assert (P : forall r, type_is t r = true <-> Incident_Type r = Some t).
  { intros r. unfold type_is. destruct (Incident_Type r) as [t'|].
    - rewrite String.eqb_eq. split; [intros ->; reflexivity|intros [= ->]; reflexivity].
    - split; discriminate. }
  assert (E : filtered_df df t = filter (type_is t) df).
  { unfold filtered_df. apply String.eqb_neq in Ht. now rewrite Ht. }
  split; [exact E|]. split; [exact P|].
  intros r. rewrite E, filter_In, P. reflexivity.
Qed.

Lemma C3_filter_witness :
  let df := [mkRow None PyNone (Some "Theft") "Unknown" (-1) None "Unknown";
             mkRow None PyNone (Some "theft") "Unknown" (-1) None "Unknown";
             mkRow None PyNone (Some "Theft (minor)") "Unknown" (-1) None "Unknown";
             mkRow None PyNone None "Unknown" (-1) None "Unknown"] in
  filtered_df df "Theft" = filter (type_is "Theft") df
  /\ filtered_df df "Theft"
     = [mkRow None PyNone (Some "Theft") "Unknown" (-1) None "Unknown"].
Proof.
  cbv zeta. split; [|vm_compute; reflexivity].
  apply (C3_filter_exact _ "Theft"). discriminate.
Defined.

(** C5: the pie chart is drawn from the incident types of the whole frame,
    whatever the selection, while the figures of [update_graphs] are
    drawn from the filtered rows. *)
Theorem C5_pie_ignores_selection (df : list row) (s1 s2 : string) :
  update_pie_chart df s1 = update_pie_chart df s2
  /\ update_pie_chart df s1 = map Incident_Type df
  /\ update_graphs df s1
     = (_ <- str_accessor df ;; Ok (figures_of (filtered_df df s1)))
  /\ (type_column_is_float df = false ->
      update_graphs df s1 = update_graphs (filtered_df df s1) "All")
  /\ (exists df' t, update_graphs df' t <> update_graphs df' "All"
                    /\ update_pie_chart df' t = update_pie_chart df' "All").
Proof.
  split; [reflexivity|]. split; [reflexivity|]. split; [reflexivity|]. split.
  - intros F. rewrite !update_graphs_returns;
      [reflexivity|now apply filtered_column|exact F].
  - exists [mkRow None PyNone (Some "Theft") "Unknown" (-1) None "Unknown";
            mkRow None PyNone (Some "Vandalism") "Unknown" (-1) None "Unknown"],
           "Theft".
    split; [vm_compute; discriminate|reflexivity].
Qed.

Lemma C5_pie_witness :
  let df := [mkRow None PyNone (Some "Theft") "Unknown" (-1) None "Unknown";
             mkRow None PyNone (Some "Vandalism") "Unknown" (-1) None "Unknown"] in
  update_graphs df "Theft" = update_graphs (filtered_df df "Theft") "All"
  /\ update_pie_chart df "Theft" = update_pie_chart df "All".
Proof.
  cbv zeta. split.
  - apply (proj1 (proj2 (proj2 (proj2 (C5_pie_ignores_selection _ "Theft" "All"))))).
    reflexivity.
  - exact (proj1 (C5_pie_ignores_selection _ "Theft" "All")).
Defined.

(** ** Column names *)

Section Columns.

Lemma lstrip_spec (s : string) :
  exists pre, s = pre ++ lstrip s /\ all_space pre = true
              /\ starts_with_space (lstrip s) = false.
Proof.
  induction s as [|c r (pre & E & A & S)]; cbn [lstrip].
  - exists "". auto.
  - destruct (isspace c) eqn:W.
    + exists (String c pre). cbn. rewrite W, A, <- E. auto.
    + exists "". cbn. auto.
Qed.

Lemma rstrip_spec (s : string) :
  exists post, s = rstrip s ++ post /\ all_space post = true
               /\ ends_with_space (rstrip s) = false.
Proof.
  induction s as [|c r (post & E & A & S)]; cbn [rstrip].
  - exists "". auto.
  - destruct (rstrip r) as [|c' r'] eqn:R.
    + cbn [append] in E. subst r. destruct (isspace c) eqn:W.
      * exists (String c post). cbn. rewrite W, A. auto.
      * exists post. cbn. rewrite W. auto.
    + exists post. split; [cbn [append]; f_equal; exact E|].
      split; assumption.
Qed.

Lemma rstrip_start (s : string) :
  starts_with_space s = false -> starts_with_space (rstrip s) = false.
Proof.
  destruct s as [|c r]; cbn [rstrip starts_with_space]; [reflexivity|].
  intros W. destruct (rstrip r); [rewrite W|]; exact W.
Qed.

Lemma strip_spec (s : string) :
  exists pre post,
    s = pre ++ strip s ++ post
    /\ all_space pre = true /\ all_space post = true
    /\ starts_with_space (strip s) = false
    /\ ends_with_space (strip s) = false.
Proof.
  destruct (lstrip_spec s) as (pre & E1 & A1 & S1).
  destruct (rstrip_spec (lstrip s)) as (post & E2 & A2 & S2).
  exists pre, post. unfold strip.
  rewrite <- E2, <- E1. repeat split; auto using rstrip_start.
Qed.

Lemma replace_plain_space (s : string) :
  replace nbsp " " (replace newline " " s) = map_chars plain_space s.
Proof.
  induction s as [|c r IH]; cbn [replace map_chars]; [reflexivity|].
  rewrite IH. f_equal. unfold plain_space.
  destruct (Ascii.eqb c newline) eqn:N; [reflexivity|].
  cbn [orb]. reflexivity.
Qed.

Lemma plain_space_not (c d : ascii) :
  Ascii.eqb " " d = false -> (d = newline \/ d = nbsp) ->
  Ascii.eqb (plain_space c) d = false.
Proof.
  intros Hs Hd. unfold plain_space.
  destruct (Ascii.eqb c newline) eqn:N; [exact Hs|].
  destruct (Ascii.eqb c nbsp) eqn:B; [exact Hs|]. cbn [orb].
  destruct Hd as [-> | ->]; assumption.
Qed.

Lemma has_char_plain (d : ascii) (s : string) :
  Ascii.eqb " " d = false -> (d = newline \/ d = nbsp) ->
  has_char d (map_chars plain_space s) = false.
Proof.
  intros Hs Hd. induction s as [|c r IH]; cbn [map_chars has_char];
    [reflexivity|].
  now rewrite plain_space_not, IH.
Qed.

Lemma isspace_plain_space (c : ascii) : isspace (plain_space c) = isspace c.
Proof.
  unfold plain_space.
  destruct (Ascii.eqb c newline) eqn:N.
  { apply Ascii.eqb_eq in N. now subst c. }
  destruct (Ascii.eqb c nbsp) eqn:B; [|reflexivity].
  apply Ascii.eqb_eq in B. now subst c.
Qed.

Lemma starts_plain (s : string) :
  starts_with_space (map_chars plain_space s) = starts_with_space s.
Proof. destruct s; cbn; [reflexivity|apply isspace_plain_space]. Qed.

Lemma ends_plain (s : string) :
  ends_with_space (map_chars plain_space s) = ends_with_space s.
Proof.
  induction s as [|c r IH]; [reflexivity|].
  destruct r as [|c' r']; [apply isspace_plain_space|exact IH].
Qed.

End Columns.


(** The key [Patron (2) Email Address ] of the table ends with a space,
    and no cleaned header does. *)
Remark trailing_space_key_unmatched (name : string) :
  clean_column name <> "Patron (2) Email Address ".
Proof.
  intros E.
  assert (H : ends_with_space (clean_column name) = true)
    by (rewrite E; vm_compute; reflexivity).
  destruct (strip_spec name) as (_ & _ & _ & _ & _ & _ & S).
  unfold clean_column in H.
  rewrite replace_plain_space, ends_plain, S in H. discriminate.
Qed.

(** * Further properties *)

Section Hyphen.

Lemma has_char_app (c : ascii) (a b : string) :
  has_char c (a ++ b) = has_char c a || has_char c b.
Proof.
  induction a as [|x a IH]; cbn [append has_char]; [reflexivity|].
  now rewrite IH, orb_assoc.
Qed.

Lemma contains_char (c : ascii) (s : string) :
  contains (String c EmptyString) s = has_char c s.
Proof.
  induction s as [|x s IH]; cbn [contains has_char prefix]; [reflexivity|].
  rewrite IH. destruct (ascii_dec c x) as [->|N].
  - rewrite Ascii.eqb_refl. now destruct s.
  - replace (Ascii.eqb x c) with false
      by (symmetry; apply Ascii.eqb_neq; congruence).
    reflexivity.
Qed.

Lemma not_hyphen (c : ascii) : code c <> 45 -> Ascii.eqb c "-" = false.
Proof.
  intros H. apply Ascii.eqb_neq. intros ->. apply H. reflexivity.
Qed.

Lemma lit_not_hyphen (c d : ascii) :
  code (lower_char d) <> 45 -> lower_char c = lower_char d ->
  Ascii.eqb c "-" = false.
Proof.
  intros Hd E. apply not_hyphen. intros Hc.
  apply Hd. rewrite <- E, code_lower_char.
  replace (isupper c) with false; [exact Hc|].
  unfold isupper. rewrite Hc. reflexivity.
Qed.

Ltac invert_regex H :=
  repeat match type of H with
    | In _ (alt _ _ _) => apply in_alt in H; destruct H as [H|H]
    | In _ (cat _ _ _) =>
        let g1 := fresh "g" in let r1 := fresh "r" in let g2 := fresh "g" in
        let H1 := fresh "H" in let H2 := fresh "H" in
        apply in_cat in H; destruct H as (g1 & r1 & g2 & H1 & H2 & ->);
        invert_regex H1; invert_regex H2
    | In _ (lit _ _) =>
        let c := fresh "c" in let E := fresh "E" in
        apply in_lit in H; destruct H as (c & -> & -> & E)
    | In _ (digit _) => unfold digit in H
    | In _ (one (in_range _ _) _) =>
        let c := fresh "c" in let E := fresh "E" in
        apply in_digit in H; destruct H as (c & -> & -> & E)
    end.

Ltac eval_codes :=
  repeat match goal with
    | |- context [code (Ascii ?a ?b ?c ?d ?e ?f ?g ?h)] =>
        let v := eval vm_compute in (code (Ascii a b c d e f g h)) in
        change (code (Ascii a b c d e f g h)) with v
    | H : context [code (Ascii ?a ?b ?c ?d ?e ?f ?g ?h)] |- _ =>
        let v := eval vm_compute in (code (Ascii a b c d e f g h)) in
        change (code (Ascii a b c d e f g h)) with v in H
    end.

Ltac no_hyphen :=
  cbn [append has_char];
  repeat match goal with
    | E : lower_char ?c = lower_char ?d |- _ =>
        let F := fresh "F" in
        assert (F : Ascii.eqb c "-" = false)
          by (apply (lit_not_hyphen c d); [vm_compute; discriminate|exact E]);
        rewrite F; clear E
    | E : _ <= code ?c <= _ |- _ =>
        let F := fresh "F" in
        assert (F : Ascii.eqb c "-" = false)
          by (apply not_hyphen; eval_codes; lia);
        rewrite F; clear E
    end;
  reflexivity.

(** A group matches a piece of the text in front, without a hyphen. *)
Lemma regex_consumes (d : directive) (s g r : string) :
  In (g, r) (directive_regex d s) -> s = g ++ r /\ has_char "-" g = false.
Proof.
  intros H. destruct d; cbn [directive_regex] in H; invert_regex H;
    (split; [reflexivity|no_hyphen]).
Qed.

Lemma matches_consume (items : list item) (s rest : string) (found : found_dict) :
  no_hyphen_literal items = true ->
  In (found, rest) (matches items s) ->
  exists consumed, s = consumed ++ rest /\ has_char "-" consumed = false.
Proof.
  revert s found. induction items as [|[d|c] items IH]; intros s found L H.
  - apply in_matches_nil in H. injection H as _ ->. now exists "".
  - apply in_matches_Dir in H. destruct H as (g & r & found' & Hg & H & _).
    apply regex_consumes in Hg. destruct Hg as [-> Hg].
    destruct (IH r found' L H) as (consumed & -> & Hc).
    exists (g ++ consumed). split.
    + clear. induction g; cbn; [reflexivity|now f_equal].
    + now rewrite has_char_app, Hg, Hc.
  - cbn [no_hyphen_literal] in L. apply andb_prop in L. destruct L as [Lc L].
    apply in_matches_Lit in H. destruct H as (g & r & Hg & H).
    apply in_lit in Hg. destruct Hg as (c' & -> & -> & E).
    destruct (IH r found L H) as (consumed & -> & Hc).
    exists (String c' consumed). split; [reflexivity|].
    cbn [has_char]. rewrite Hc, orb_false_r.
    apply not_hyphen. intros C.
    assert (U : isupper c' = false) by (unfold isupper; rewrite C; reflexivity).
    assert (E' : lower_char c' = "-"%char).
    { unfold lower_char. rewrite U. apply code_inj. exact C. }
    rewrite E' in E. rewrite <- E in Lc. discriminate.
Qed.

(** A text with a hyphen matches neither format of [standardize_time]. *)
Lemma strptime_hyphen (val fmt : string) (t : timestamp) :
  (fmt = "%I:%M%p" \/ fmt = "%H:%M") ->
  strptime val fmt = Ok (Some t) -> contains "-" val = false.
Proof.
  intros F H. apply strptime_found in H.
  destruct H as (items & found & P & H & _).
  apply matches_consume in H.
  - destruct H as (consumed & -> & Hc).
    rewrite contains_char, has_char_app, Hc. reflexivity.
  - destruct F as [-> | ->]; vm_compute in P; injection P as <-; reflexivity.
Qed.

Lemma parse_hyphen_unknown (val fmt : string) :
  (fmt = "%I:%M%p" \/ fmt = "%H:%M") ->
  contains "-" val = true ->
  try_except (t <- to_datetime val fmt errors_raise ;; strftime t "%H:%M:%S")
             "Unknown" = Ok "Unknown".
Proof.
  intros F C. rewrite to_datetime_raise.
  destruct (strptime val fmt) as [[t|]|e] eqn:E; try reflexivity.
  apply (strptime_hyphen _ _ _ F) in E. congruence.
Qed.

End Hyphen.

(** X1: a string that has a hyphen once trimmed and lower-cased is
    standardized to [Unknown], with an [am] or [pm] marker as well as
    without one. *)
Theorem X1_hyphen_always_unknown (s : string) :
  contains "-" (lower (strip s)) = true ->
  standardize_time (PyStr s) = Ok "Unknown".
Proof.
  intros H. rewrite standardize_time_str. cbv zeta. rewrite H.
  destruct (contains "am" _ || contains "pm" _); [|reflexivity].
  apply parse_hyphen_unknown; [now left|exact H].
Qed.

Lemma X1_hyphen_witness :
  standardize_time (PyStr "9am-10am") = Ok "Unknown".
Proof.
  apply X1_hyphen_always_unknown. vm_compute. reflexivity.
Defined.

Section Whitespace.

Lemma lstrip_all_space (s : string) : all_space s = true -> lstrip s = "".
Proof.
  induction s as [|c r IH]; cbn [all_space lstrip]; [reflexivity|].
  intros H. apply andb_prop in H. destruct H as [-> H]. auto.
Qed.

Lemma rstrip_all_space (s : string) : all_space s = true -> rstrip s = "".
Proof.
  induction s as [|c r IH]; cbn [all_space rstrip]; [reflexivity|].
  intros H. apply andb_prop in H. destruct H as [-> H]. now rewrite IH.
Qed.

Lemma lstrip_space_app (pre s : string) :
  all_space pre = true -> lstrip (pre ++ s) = lstrip s.
Proof.
  induction pre as [|c r IH]; cbn [all_space append lstrip]; [reflexivity|].
  intros H. apply andb_prop in H. destruct H as [-> H]. auto.
Qed.

Lemma rstrip_app_space (s post : string) :
  all_space post = true -> rstrip (s ++ post) = rstrip s.
Proof.
  intros H. induction s as [|c r IH]; cbn [append rstrip].
  - now apply rstrip_all_space.
  - now rewrite IH.
Qed.

Lemma strip_app_space (s post : string) :
  all_space post = true -> strip (s ++ post) = strip s.
Proof.
  intros H. unfold strip. induction s as [|c r IH]; cbn [append lstrip].
  - now rewrite lstrip_all_space.
  - destruct (isspace c); [exact IH|].
    now apply (rstrip_app_space (String c r)).
Qed.

Lemma strip_padding (pre s post : string) :
  all_space pre = true -> all_space post = true ->
  strip (pre ++ s ++ post) = strip s.
Proof.
  intros H1 H2. unfold strip. rewrite lstrip_space_app by assumption.
  now apply strip_app_space.
Qed.

End Whitespace.

(** X2: white space around the text of a cell does not change its
    standardized time. *)
Theorem X2_padding_ignored (pre s post : string) :
  all_space pre = true -> all_space post = true ->
  standardize_time (PyStr (pre ++ s ++ post)) = standardize_time (PyStr s).
Proof.
  intros H1 H2. rewrite !standardize_time_str.
  now rewrite strip_padding.
Qed.

Lemma X2_padding_witness :
  standardize_time (PyStr ("  " ++ "2:30pm" ++ String nbsp " "))
  = standardize_time (PyStr "2:30pm").
Proof.
  apply X2_padding_ignored; vm_compute; reflexivity.
Defined.

Section Clock.

Lemma standardize_time_clock (h m : Z) (pad_hour : bool) :
  0 <= h <= 23 -> 0 <= m <= 59 ->
  standardize_time (PyStr (clock h m pad_hour)) = Ok (hms h m 0).
Proof.
  intros Hh Hm. apply result_is_string.
  pose (p := fun pad h m =>
               result_is String.eqb (standardize_time (PyStr (clock h m pad)))
                         (hms h m 0)).
  change (p pad_hour h m = true).
  destruct pad_hour; apply (forall_upto2 _ 24 60); try lia;
    vm_compute; reflexivity.
Qed.


End Clock.

(** X3: a 24-hour reading [HH:MM] or [H:MM] of a minute of the day is
    standardized to [HH:MM:00]. *)
Theorem X3_clock_reading (h m : Z) (pad_hour : bool) :
  0 <= h <= 23 -> 0 <= m <= 59 ->
  standardize_time (PyStr (clock h m pad_hour)) = Ok (hms h m 0)
  /\ incident_hour (hms h m 0) = Ok h.
Proof.
  intros Hh Hm. split.
  - now apply standardize_time_clock.
  - now apply incident_hour_hms.
Qed.

Lemma X3_clock_witness :
  standardize_time (PyStr "7:05") = Ok "07:05:00"
  /\ incident_hour "07:05:00" = Ok 7.
Proof.
  apply (X3_clock_reading 7 5 false); lia.
Defined.



(** X5: with an [am] or [pm] marker the hour has to be from 1 to 12: a
    reading with the hour 0 or an hour from 13 to 23 before the marker is
    standardized to [Unknown]. *)
Theorem X5_marker_needs_12_hour_clock (h m : Z) (pad_hour pm : bool) :
  h = 0 \/ 13 <= h <= 23 -> 0 <= m <= 59 ->
  standardize_time (PyStr (clock h m pad_hour ++ marker pm)) = Ok "Unknown".
Proof.
  intros Hh Hm. apply result_is_string.
  pose (p := fun pad pm h m =>
               ((1 <=? h) && (h <=? 12))
               || result_is String.eqb
                    (standardize_time (PyStr (clock h m pad ++ marker pm)))
                    "Unknown").
  assert (H : p pad_hour pm h m = true).
  { destruct pad_hour, pm; apply (forall_upto2 _ 24 60); try lia;
      vm_compute; reflexivity. }
  unfold p in H. apply orb_prop in H. destruct H as [H|H]; [lia|exact H].
Qed.

Lemma X5_marker_witness :
  standardize_time (PyStr "13:00pm") = Ok "Unknown".
Proof.
  apply (X5_marker_needs_12_hour_clock 13 0 false true); lia.
Defined.

Section Pipeline.

Lemma hms_not_unknown (h m : Z) : hms h m 0 <> "Unknown".
Proof. unfold hms, two_digits. cbn [append]. intros E. inversion E. Qed.

Lemma time_range_known (h : Z) :
  0 <= h -> time_range h <> "Unknown" /\ In (time_range h) time_range_labels.
Proof.
  intros H. unfold time_range.
  replace (h <? 0) with false by lia.
  repeat match goal with
    | |- context [if ?b then _ else _] => destruct b
    end; (split; [discriminate|cbn; tauto]).
Qed.

Lemma derive_derived (raw : raw_row) :
  exists r, derive raw = Ok r /\ derived_from raw r.
Proof.
  destruct (standardize_time_result (raw_Incident_Time raw))
    as [E|(h & m & Hh & Hm & E)].
  - eexists. split; [now apply derive_unknown|].
    unfold derived_from. cbn [Date Incident_Time Incident_Type
      Standardized_Incident_Time Day_of_Week Time_Range Incident_Hour].
    repeat split; try assumption; try reflexivity; try lia.
    cbn. tauto.
  - eexists. split; [now apply derive_hms|].
    unfold derived_from. cbn [Date Incident_Time Incident_Type
      Standardized_Incident_Time Day_of_Week Time_Range Incident_Hour].
    destruct (time_range_known h ltac:(lia)) as [K L].
    pose proof (hms_not_unknown h m) as N.
    repeat split; try assumption; try reflexivity; try lia;
      intros X; solve [now destruct N | now destruct K | lia].
Qed.

Lemma day_name_some (d : Z) :
  exists name, day_name (Some d) = Some name /\ In name weekdays.
Proof.
  cbn [day_name].
  assert (H : (Z.to_nat ((d + 3) mod 7) < List.length weekdays)%nat)
    by (cbn; lia).
  apply nth_error_Some in H.
  destruct (nth_error weekdays (Z.to_nat ((d + 3) mod 7))) as [name|] eqn:E;
    [|now destruct H].
  exists name. split; [reflexivity|]. eapply nth_error_In, E.
Qed.

Lemma dated_present (df : list row) :
  Forall (fun r => Day_of_Week r = day_name (Date r)) df ->
  present (map Day_of_Week df) = dated df.
Proof.
  unfold present, dated. induction 1 as [|r df H F IH]; [reflexivity|].
  cbn [map filter]. rewrite H.
  destruct (Date r) as [d|].
  - destruct (day_name_some d) as (name & -> & _). cbn [List.length].
    now f_equal.
  - exact IH.
Qed.

Lemma preprocess_derived (rows : list raw_row) :
  exists df, preprocess rows = Ok df /\ Forall2 derived_from rows df.
Proof. apply mapM_total. apply derive_derived. Qed.

Lemma derived_days (rows : list raw_row) (df : list row) :
  Forall2 derived_from rows df ->
  Forall (fun r => Day_of_Week r = day_name (Date r)) df.
Proof.
  induction 1 as [|raw r rows df H F IH]; constructor; [|exact IH].
  destruct H as (-> & _ & _ & _ & -> & _). reflexivity.
Qed.

End Pipeline.

(** X6: the pass over the sheet never fails and builds the frame row by
    row: the raw columns are kept, the hour lies between -1 and 23, the
    time range is the label of that hour, and the standardized time, the
    hour and the time range are unknown together or not at all. *)
Theorem X6_preprocess_rows (rows : list raw_row) :
  exists df, preprocess rows = Ok df /\ Forall2 derived_from rows df.
Proof. apply preprocess_derived. Qed.

(** X7: a date always has a day of week, one of the seven names, the same
    a week later; in the frame a row lacks the day exactly when it lacks
    the date, so the column handed to the day-of-week figure holds as
    many days as there are rows with a date. *)
Theorem X7_day_of_week (rows : list raw_row) (df : list row) (d : Z) :
  preprocess rows = Ok df ->
  (exists name, day_name (Some d) = Some name /\ In name weekdays)
  /\ day_name (Some (d + 7)) = day_name (Some d)
  /\ Forall (fun r => Day_of_Week r = None <-> Date r = None) df
  /\ present (map Day_of_Week df) = dated df
  /\ (forall figs, update_graphs df "All" = Ok figs ->
                   present (day_fig figs) = dated df).
Proof.
  intros E.
  destruct (preprocess_derived rows) as (df' & E' & F).
  rewrite E in E'. injection E' as <-. apply derived_days in F.
  split; [apply day_name_some|].
  split; [cbn [day_name]; do 2 f_equal; lia|].
  split; [|split].
  - eapply Forall_impl; [|exact F]. cbv beta. intros r ->.
    destruct (Date r) as [x|]; [|tauto].
    destruct (day_name_some x) as (name & -> & _). split; discriminate.
  - now apply dated_present.
  - intros figs G. apply update_graphs_figures in G. destruct G as [_ ->].
    unfold figures_of. cbn [day_fig filtered_df String.eqb Ascii.eqb
      Bool.eqb negb]. now apply dated_present.
Qed.

Lemma X7_day_witness :
  let df := [mkRow (Some 4) (PyStr "08:30") (Some "Theft") "08:30:00" 8
                   (Some "Monday") "6am-9am";
             mkRow None PyNone None "Unknown" (-1) None "Unknown"] in
  preprocess [mkRaw (Some 4) (PyStr "08:30") (Some "Theft");
              mkRaw None PyNone None] = Ok df
  /\ present (map Day_of_Week df) = dated df.
Proof.
  cbv zeta.
  assert (E : preprocess [mkRaw (Some 4) (PyStr "08:30") (Some "Theft");
                          mkRaw None PyNone None]
              = Ok [mkRow (Some 4) (PyStr "08:30") (Some "Theft") "08:30:00" 8
                          (Some "Monday") "6am-9am";
                    mkRow None PyNone None "Unknown" (-1) None "Unknown"])
    by (vm_compute; reflexivity).
  split; [exact E|].
  exact (proj1 (proj2 (proj2 (proj2 (X7_day_of_week _ _ 0 E))))).
Defined.



(** X8: filtering twice by the same selection is filtering once, two
    different incident types select no common row, and a selection never
    adds a row. *)
Theorem X8_filter_composition (df : list row) (t1 t2 : string) :
  filtered_df (filtered_df df t1) t1 = filtered_df df t1
  /\ (List.length (filtered_df df t1) <= List.length df)%nat
  /\ (t1 <> "All" -> t2 <> "All" -> t1 <> t2 ->
      filtered_df (filtered_df df t1) t2 = []).
Proof.
  split; [|split].
  - unfold filtered_df. destruct (negb (t1 =? "All")%string); [|reflexivity].
    apply filter_idem.
  - unfold filtered_df. destruct (negb (t1 =? "All")%string); [|lia].
    apply filter_length_le.
  - intros H1 H2 N. unfold filtered_df.
    apply String.eqb_neq in H1, H2. rewrite H1, H2. cbn [negb].
    apply filter_disjoint. intros r Hr. apply type_is_iff in Hr.
    destruct (type_is t2 r) eqn:E; [|reflexivity].
    apply type_is_iff in E. congruence.
Qed.

Lemma X8_filter_witness :
  filtered_df
    (filtered_df [mkRow None PyNone (Some "Theft") "Unknown" (-1) None "Unknown";
                  mkRow None PyNone (Some "Noise") "Unknown" (-1) None "Unknown"]
                 "Theft") "Noise" = [].
Proof.
  apply X8_filter_composition; discriminate.
Defined.

(** X9: [update_graphs] raises [AttributeError] on a frame that has rows
    and not one incident type, whatever the selection.  Otherwise, for a
    selection other than [All], a type that no row has gives a total of
    zero, no count and empty columns, and a type that some row has gives
    a total of at least one. *)
Theorem X9_selection_absent_or_present (df : list row) (t : string) :
  t <> "All" ->
  (df <> [] -> (forall r, In r df -> Incident_Type r = None) ->
   update_graphs df t = Raise AttributeError
   /\ update_graphs df "All" = Raise AttributeError)
  /\ (type_column_is_float df = false ->
      (forall r, In r df -> Incident_Type r <> Some t) ->
      update_graphs df t = Ok (mkFigures 0 [] [] [] []))
  /\ ((exists r, In r df /\ Incident_Type r = Some t) ->
      exists figs, update_graphs df t = Ok figs
                   /\ (1 <= total_incidents figs)%nat).
Proof.
  intros Ht. apply String.eqb_neq in Ht. split; [|split].
  - intros N H. assert (F : type_column_is_float df = true)
      by (apply float_column; now split).
    split; now apply update_graphs_raises.
  - intros F H. rewrite update_graphs_returns by exact F.
    unfold filtered_df. rewrite Ht. cbn [negb].
    rewrite filter_none; [reflexivity|].
    intros r Hr. destruct (type_is t r) eqn:E; [|reflexivity].
    apply type_is_iff in E. now destruct (H r Hr).
  - intros (r & Hr & E). eexists.
    split; [apply update_graphs_returns; now apply (typed_column df r t)|].
    unfold figures_of, filtered_df. rewrite Ht. cbn [negb total_incidents].
    assert (I : In r (filter (type_is t) df)).
    { apply filter_In. split; [exact Hr|now apply type_is_iff]. }
    destruct (filter (type_is t) df); [destruct I|cbn; lia].
Qed.

Lemma X9_selection_witness :
  update_graphs [mkRow None PyNone None "Unknown" (-1) None "Unknown"] "Noise"
  = Raise AttributeError
  /\ update_graphs [mkRow None PyNone (Some "Theft") "Unknown" (-1) None "Unknown"]
                   "Noise" = Ok (mkFigures 0 [] [] [] []).
Proof.
  split.
  - apply (X9_selection_absent_or_present
             [mkRow None PyNone None "Unknown" (-1) None "Unknown"] "Noise");
      [discriminate|discriminate|].
    intros r [<-|[]]. reflexivity.
  - apply X9_selection_absent_or_present;
      [discriminate|reflexivity|].
    intros r [<-|[]]. discriminate.
Defined.



(** X10: whenever [update_graphs] returns, the points of its hour figure
    come in increasing order of the hour, one per hour that occurs; the
    count at an hour is the number of filtered rows with that hour, and
    no point has the count zero. *)
Theorem X10_hour_figure (df : list row) (selected_type : string)
        (figs : figures) (h : Z) :
  update_graphs df selected_type = Ok figs ->
  increasing (map fst (hour_fig figs))
  /\ Forall (fun kn => (1 <= snd kn)%nat) (hour_fig figs)
  /\ count_at h (hour_fig figs) = rows_at_hour h (filtered_df df selected_type).
Proof.
  intros G. apply update_graphs_figures in G. destruct G as [_ ->].
  unfold figures_of. cbn [hour_fig]. unfold groupby_size.
  destruct (groupby_size_spec
              (map Incident_Hour (filtered_df df selected_type)) [] h)
    as (I & P & C); [exact I|constructor|].
  cbv zeta in C. split; [exact I|]. split; [exact P|].
  rewrite C, filter_map_length. cbn [count_at]. now rewrite Nat.add_0_r.
Qed.

Lemma X10_hour_witness :
  let df := [mkRow None PyNone (Some "Theft") "08:30:00" 8 None "6am-9am";
             mkRow None PyNone (Some "Theft") "Unknown" (-1) None "Unknown";
             mkRow None PyNone None "08:05:00" 8 None "6am-9am"] in
  count_at 8 [(-1, 1%nat); (8, 2%nat)] = rows_at_hour 8 (filtered_df df "All").
Proof.
  cbv zeta.
  refine (proj2 (proj2 (X10_hour_figure _ "All"
                          (mkFigures 3 [("Theft", 2%nat)] [(-1, 1%nat); (8, 2%nat)]
                                     ["6am-9am"; "Unknown"; "6am-9am"]
                                     [None; None; None]) 8 _))).
  vm_compute. reflexivity.
Defined.


Section Dropdown.

Lemma in_dropna (t : string) (xs : list (option string)) :
  In t (dropna xs) <-> In (Some t) xs.
Proof.
  induction xs as [|[x|] xs IH]; cbn [dropna In]; [tauto| |].
  - rewrite IH. split; intros [H|H]; auto; left; congruence.
  - rewrite IH. split; [auto|]. intros [H|H]; [discriminate|exact H].
Qed.

Lemma existsb_eqb (x : string) (l : list string) :
  existsb (String.eqb x) l = true <-> In x l.
Proof.
  rewrite existsb_exists. split.
  - intros (y & H & E). apply String.eqb_eq in E. now subst.
  - intros H. exists x. split; [exact H|apply String.eqb_refl].
Qed.

Lemma in_unique_from (y : string) (xs seen : list string) :
  In y (unique_from seen xs) <-> In y xs /\ ~ In y seen.
Proof.
  revert seen. induction xs as [|x xs IH]; intros seen; cbn [unique_from In].
  - tauto.
  - destruct (existsb (String.eqb x) seen) eqn:E.
    + apply existsb_eqb in E. rewrite IH. split; [tauto|].
      intros [[->|H] N]; tauto.
    + assert (N : ~ In x seen).
      { intros H. apply existsb_eqb in H. congruence. }
      cbn [In]. rewrite IH. cbn [In].
      destruct (string_dec x y) as [->|D]; tauto.
Qed.

Lemma nodup_unique_from (xs seen : list string) : NoDup (unique_from seen xs).
Proof.
  revert seen. induction xs as [|x xs IH]; intros seen; cbn [unique_from].
  - constructor.
  - destruct (existsb (String.eqb x) seen); [apply IH|].
    constructor; [|apply IH]. rewrite in_unique_from. cbn [In]. tauto.
Qed.

Lemma in_insert_sorted (y x : string) (l : list string) :
  In y (insert_sorted x l) <-> y = x \/ In y l.
Proof.
  induction l as [|z l IH]; cbn [insert_sorted In]; [intuition|].
  destruct (String.leb x z); cbn [In]; [|rewrite IH]; intuition.
Qed.

Lemma nodup_insert_sorted (x : string) (l : list string) :
  ~ In x l -> NoDup l -> NoDup (insert_sorted x l).
Proof.
  induction l as [|z l IH]; cbn [insert_sorted]; intros N D.
  - repeat constructor. exact N.
  - destruct (String.leb x z); [now constructor|].
    inversion D; subst. constructor.
    + rewrite in_insert_sorted. cbn [In] in N. intuition.
    + apply IH; [cbn [In] in N; tauto|assumption].
Qed.

Lemma compare_trans_le (a b c : string) :
  String.compare a b <> Gt -> String.compare b c <> Gt ->
  String.compare a c <> Gt.
Proof.
  revert b c. induction a as [|x a IH]; intros [|y b] [|z c];
    cbn [String.compare]; try congruence.
  unfold Ascii.compare.
  destruct (N.compare_spec (N_of_ascii x) (N_of_ascii y)) as [E1|L1|G1];
    destruct (N.compare_spec (N_of_ascii y) (N_of_ascii z)) as [E2|L2|G2];
    destruct (N.compare_spec (N_of_ascii x) (N_of_ascii z)) as [E3|L3|G3];
    try congruence; try lia.
  apply IH.
Qed.

Lemma leb_trans (a b c : string) :
  String.leb a b = true -> String.leb b c = true -> String.leb a c = true.
Proof.
  unfold String.leb. intros H1 H2.
  pose proof (compare_trans_le a b c) as T.
  destruct (String.compare a b), (String.compare b c), (String.compare a c);
    try reflexivity; try discriminate; exfalso; apply T; congruence.
Qed.

Lemma leb_neq_ltb (a b : string) :
  String.leb a b = true -> a <> b -> String.ltb a b = true.
Proof.
  unfold String.leb, String.ltb. intros H N.
  destruct (String.compare a b) eqn:E; try reflexivity; try discriminate.
  apply String.compare_eq_iff in E. contradiction.
Qed.

Lemma forall_insert_sorted (P : string -> Prop) (x : string) (l : list string) :
  P x -> Forall P l -> Forall P (insert_sorted x l).
Proof.
  intros Hx H. apply Forall_forall. intros y Hy.
  apply in_insert_sorted in Hy. destruct Hy as [->|Hy]; [exact Hx|].
  rewrite Forall_forall in H. now apply H.
Qed.

Lemma nondecreasing_insert (x : string) (l : list string) :
  nondecreasing l -> nondecreasing (insert_sorted x l).
Proof.
  induction l as [|z l IH]; cbn [insert_sorted nondecreasing].
  - intros _. split; constructor.
  - intros [F S]. destruct (String.leb x z) eqn:E; cbn [nondecreasing].
    + split; [|now split]. constructor; [exact E|].
      eapply Forall_impl; [|exact F]. cbv beta. intros y.
      now apply leb_trans.
    + split; [|now apply IH]. apply forall_insert_sorted; [|exact F].
      destruct (String.leb_total x z) as [H|H]; congruence.
Qed.

Lemma ascending_of (l : list string) :
  nondecreasing l -> NoDup l -> ascending l.
Proof.
  induction l as [|x l IH]; cbn [nondecreasing ascending]; [tauto|].
  intros [F S] D. inversion D; subst. split; [|now apply IH].
  rewrite Forall_forall in *. intros y Hy. apply leb_neq_ltb; [now apply F|].
  intros ->. contradiction.
Qed.

Lemma sorted_spec (l : list string) :
  NoDup l ->
  nondecreasing (sorted l) /\ NoDup (sorted l)
  /\ (forall y, In y (sorted l) <-> In y l).
Proof.
  induction l as [|x l IH]; cbn [sorted fold_right]; intros D.
  - repeat split; try constructor; tauto.
  - inversion D; subst. destruct (IH H2) as (S & N & I).
    fold (sorted l). split; [now apply nondecreasing_insert|]. split.
    + apply nodup_insert_sorted; [now rewrite I|exact N].
    + intros y. rewrite in_insert_sorted, I. cbn [In]. intuition.
Qed.

Lemma in_incident_types (t : string) (df : list row) :
  In t (incident_types df) <-> exists r, In r df /\ Incident_Type r = Some t.
Proof.
  unfold incident_types, unique. rewrite in_unique_from, in_dropna, in_map_iff.
  cbn [In]. split.
  - intros [(r & E & H) _]. eauto.
  - intros (r & H & E). split; [eauto|tauto].
Qed.

End Dropdown.

(** X12: the dropdown starts with the option [All]; after it come the
    incident types of the frame, each once, in ascending order, the label
    being the value; every type is the type of some row, so choosing it
    leaves at least one row. *)
Theorem X12_dropdown_options (df : list row) :
  exists types,
    dropdown_options df
    = mkOption "All Types" "All" :: map (fun it => mkOption it it) types
    /\ ascending types
    /\ (forall t, In t types
                  <-> exists r, In r df /\ Incident_Type r = Some t)
    /\ (forall t, In t types ->
                  exists figs, update_graphs df t = Ok figs
                               /\ (1 <= total_incidents figs)%nat).
Proof.
  exists (sorted (incident_types df)).
  destruct (sorted_spec (incident_types df)) as (S & N & I).
  { apply nodup_unique_from. }
  split; [reflexivity|]. split; [now apply ascending_of|].
  assert (T : forall t, In t (sorted (incident_types df))
                        <-> exists r, In r df /\ Incident_Type r = Some t).
  { intros t. rewrite I. apply in_incident_types. }
  split; [exact T|].
  intros t Ht. apply T in Ht. destruct Ht as (r & Hr & E). eexists.
  split; [apply update_graphs_returns; now apply (typed_column df r t)|].
  unfold figures_of, filtered_df. cbn [total_incidents].
  destruct (negb (t =? "All")%string).
  - assert (F : In r (filter (type_is t) df)).
    { apply filter_In. split; [exact Hr|]. unfold type_is. rewrite E.
      apply String.eqb_refl. }
    destruct (filter (type_is t) df); [destruct F|cbn; lia].
  - destruct df; [destruct Hr|cbn; lia].
Qed.

Section Renaming.

Lemma lstrip_id (s : string) : starts_with_space s = false -> lstrip s = s.
Proof. destruct s as [|c r]; cbn; [reflexivity|]. now intros ->. Qed.

Lemma rstrip_id (s : string) : ends_with_space s = false -> rstrip s = s.
Proof.
  induction s as [|c r IH]; [reflexivity|].
  cbn [rstrip]. destruct r as [|c' r'].
  - cbn. now intros ->.
  - intros H. rewrite IH by exact H. reflexivity.
Qed.

Lemma plain_space_id (s : string) :
  has_char newline s = false -> has_char nbsp s = false ->
  map_chars plain_space s = s.
Proof.
  induction s as [|c r IH]; cbn [has_char map_chars]; [reflexivity|].
  intros H1 H2. apply orb_false_elim in H1, H2.
  destruct H1 as [N1 H1], H2 as [N2 H2].
  rewrite IH by assumption. unfold plain_space. now rewrite N1, N2.
Qed.

Lemma clean_column_clean (name : string) :
  starts_with_space (clean_column name) = false
  /\ ends_with_space (clean_column name) = false
  /\ has_char newline (clean_column name) = false
  /\ has_char nbsp (clean_column name) = false.
Proof.
  unfold clean_column. rewrite replace_plain_space, starts_plain, ends_plain.
  destruct (strip_spec name) as (_ & _ & _ & _ & _ & S & E).
  repeat split; try assumption;
    apply has_char_plain; auto; vm_compute; reflexivity.
Qed.

Lemma clean_column_fixed (s : string) :
  starts_with_space s = false -> ends_with_space s = false ->
  has_char newline s = false -> has_char nbsp s = false ->
  clean_column s = s.
Proof.
  intros S E N B. unfold clean_column, strip.
  rewrite lstrip_id, rstrip_id, replace_plain_space by assumption.
  now apply plain_space_id.
Qed.

Lemma clean_column_idem (name : string) :
  clean_column (clean_column name) = clean_column name.
Proof.
  destruct (clean_column_clean name) as (S & E & N & B).
  now apply clean_column_fixed.
Qed.

Lemma dict_get_in (key v : string) (d : list (string * string)) :
  dict_get key d = Some v -> In (key, v) d.
Proof.
  induction d as [|[k w] d IH]; cbn [dict_get In]; [discriminate|].
  destruct (k =? key)%string eqn:E.
  - apply String.eqb_eq in E. intros [= ->]. left. now subst.
  - intros H. right. now apply IH.
Qed.

Lemma canonical_fixed :
  Forall (fun kv => rename rename_mapping (clean_column (snd kv)) = snd kv)
         rename_mapping.
Proof. repeat constructor. Qed.

Lemma rename_clean_idem (name : string) :
  rename rename_mapping
         (clean_column (rename rename_mapping (clean_column name)))
  = rename rename_mapping (clean_column name).
Proof.
  unfold rename at 2 3.
  destruct (dict_get (clean_column name) rename_mapping) as [v|] eqn:E.
  - apply dict_get_in in E.
    pose proof canonical_fixed as F. rewrite Forall_forall in F.
    exact (F _ E).
  - rewrite clean_column_idem. unfold rename. now rewrite E.
Qed.

End Renaming.

(** X13: normalizing a header row that is already normalized changes
    nothing. *)
Theorem X13_normalize_columns_idempotent (columns : list string) :
  normalize_columns (normalize_columns columns) = normalize_columns columns.
Proof.
  unfold normalize_columns. rewrite !map_map.
  apply map_ext. intros name. apply rename_clean_idem.
Qed.

(** X14: no header is renamed to [Patron 2 Email]: the key of that entry
    of the table ends with a space, which the cleaning has cut off before
    the lookup; the header of the sheet comes out as
    [Patron (2) Email Address]. *)
Theorem X14_patron_2_email_never_renamed (name : string) :
  dict_get (clean_column name) rename_mapping <> Some "Patron 2 Email"
  /\ normalize_columns ["Patron (2) Email Address "]
     = ["Patron (2) Email Address"]
  /\ dict_get "Patron (2) Email Address " rename_mapping = Some "Patron 2 Email".
Proof.
  split; [|split; vm_compute; reflexivity].
  intros E. apply dict_get_in in E.
  destruct (clean_column_clean name) as (_ & S & _).
  unfold rename_mapping in E. cbn [In] in E.
  repeat (destruct E as [E|E]; [try discriminate E|]); try contradiction.
  injection E as E. rewrite <- E in S. vm_compute in S. discriminate.
Qed.

Section TypeCleaning.

Lemma match_paren_none (s : string) :
  has_char "(" s = false -> match_paren s = None.
Proof.
  induction s as [|c r IH]; cbn [has_char match_paren]; [reflexivity|].
  intros H. apply orb_false_elim in H. destruct H as [N H].
  rewrite N, IH by exact H. now destruct (isspace c).
Qed.

Lemma sub_paren_no_paren (s : string) :
  has_char "(" s = false -> sub_paren 0 s = s.
Proof.
  induction s as [|c r IH]; [reflexivity|]. intros H.
  cbn [sub_paren]. rewrite (match_paren_none _ H).
  cbn [has_char] in H. apply orb_false_elim in H. destruct H as [_ H].
  now rewrite IH.
Qed.

Lemma sub_paren_length (s : string) (skip : nat) :
  (String.length (sub_paren skip s) <= String.length s)%nat.
Proof.
  revert skip. induction s as [|c r IH]; intros skip; cbn [sub_paren];
    [cbn; lia|].
  destruct skip as [|k].
  - destruct (match_paren (String c r)) as [[|k]|]; cbn [String.length].
    + specialize (IH 0%nat). lia.
    + specialize (IH k). lia.
    + specialize (IH 0%nat). lia.
  - cbn [String.length]. specialize (IH k). lia.
Qed.

Lemma sub_paren_skip_all (s : string) : sub_paren (String.length s) s = "".
Proof. induction s as [|c r IH]; [reflexivity|exact IH]. Qed.

Lemma length_app (a b : string) :
  String.length (a ++ b) = (String.length a + String.length b)%nat.
Proof. induction a as [|c a IH]; cbn; [reflexivity|now rewrite IH]. Qed.

Lemma close_paren_found (q : string) :
  has_char ")" q = false -> has_char newline q = false ->
  close_paren (q ++ ")") = Some (S (String.length q)).
Proof.
  induction q as [|c q IH]; cbn [has_char append close_paren String.length];
    [reflexivity|].
  intros H1 H2. apply orb_false_elim in H1, H2.
  destruct H1 as [N1 H1], H2 as [N2 H2].
  now rewrite N1, N2, IH.
Qed.

Lemma isspace_not_paren (c : ascii) : isspace c = true -> Ascii.eqb c "(" = false.
Proof.
  intros H. apply Ascii.eqb_neq. intros ->. vm_compute in H. discriminate.
Qed.

Lemma match_paren_space (ws tail : string) (n : nat) :
  all_space ws = true -> match_paren tail = Some n ->
  match_paren (ws ++ tail) = Some (String.length ws + n)%nat.
Proof.
  intros W T. induction ws as [|c ws IH]; cbn [append match_paren all_space] in *;
    [exact T|].
  apply andb_prop in W. destruct W as [-> W]. now rewrite IH.
Qed.

Lemma match_paren_blocked (base tail : string) :
  has_char "(" base = false -> all_space base = false ->
  match_paren (base ++ tail) = None.
Proof.
  induction base as [|c b IH]; cbn [has_char all_space append match_paren];
    [discriminate|].
  intros H W. apply orb_false_elim in H. destruct H as [N H].
  rewrite N. destruct (isspace c); [|reflexivity].
  cbn [andb] in W. now rewrite IH.
Qed.

Lemma rstrip_empty (s : string) : rstrip s = "" -> all_space s = true.
Proof.
  induction s as [|c r IH]; cbn [rstrip all_space]; [reflexivity|].
  destruct (rstrip r) as [|c' r']; [|discriminate].
  destruct (isspace c); [|discriminate]. intros _. now apply IH.
Qed.

(** A parenthesis at the end goes, with the white space before it. *)
Lemma sub_paren_suffix (base q : string) :
  has_char "(" base = false ->
  has_char ")" q = false -> has_char newline q = false ->
  sub_paren 0 (base ++ "(" ++ q ++ ")") = rstrip base.
Proof.
  intros B Q1 Q2.
  assert (T : match_paren ("(" ++ q ++ ")") = Some (S (S (String.length q)))).
  { cbn [append match_paren]. replace (isspace "(") with false by reflexivity.
    rewrite Ascii.eqb_refl, close_paren_found by assumption. reflexivity. }
  induction base as [|c b IH].
  - cbn [append] in *. cbn [sub_paren]. cbn [append] in T. rewrite T.
    replace (S (String.length q)) with (String.length (q ++ ")"))
      by (rewrite length_app; cbn; lia).
    apply sub_paren_skip_all.
  - destruct (all_space (String c b)) eqn:W.
    + rewrite rstrip_all_space by exact W.
      pose proof (match_paren_space _ _ _ W T) as M.
      cbn [append String.length Nat.add] in M. cbn [append sub_paren].
      cbn [append] in M. rewrite M.
      replace (String.length b + S (S (String.length q)))%nat
        with (String.length (b ++ "(" ++ q ++ ")"))
        by (rewrite !length_app; cbn; lia).
      apply sub_paren_skip_all.
    + pose proof (match_paren_blocked _ ("(" ++ q ++ ")") B W) as M.
      cbn [append sub_paren]. cbn [append] in M. rewrite M.
      cbn [has_char] in B. apply orb_false_elim in B. destruct B as [_ B].
      cbn [append] in IH. rewrite (IH B). cbn [rstrip].
      destruct (rstrip b) as [|c' r'] eqn:R; [|reflexivity].
      apply rstrip_empty in R. cbn [all_space] in W. rewrite R in W.
      rewrite andb_true_r in W. now rewrite W.
Qed.

End TypeCleaning.

(** X15: cleaning an incident type never makes it longer and leaves a
    type without an opening parenthesis as it is; a parenthesis that ends
    a type, its text free of newlines, is taken out with the white space
    before it. *)
Theorem X15_clean_type (t base q : string) :
  (String.length (clean_type t) <= String.length t)%nat
  /\ (has_char "(" t = false -> clean_type t = t)
  /\ (has_char "(" base = false ->
      has_char ")" q = false -> has_char newline q = false ->
      clean_type (base ++ "(" ++ q ++ ")") = rstrip base).
Proof.
  unfold clean_type. split; [apply sub_paren_length|].
  split; [apply sub_paren_no_paren|apply sub_paren_suffix].
Qed.

Lemma X15_clean_type_witness :
  clean_type "Vandalism" = "Vandalism"
  /\ clean_type "Theft (minor)" = "Theft".
Proof.
  split.
  - apply (X15_clean_type "Vandalism" "" ""). vm_compute. reflexivity.
  - apply (X15_clean_type "" "Theft " "minor"); vm_compute; reflexivity.
Defined.

(** X16: whenever [update_graphs] returns, the counts of the incident
    types come highest first, one per cleaned type; they add up to the
    filtered rows that have a type, and the count of a cleaned type is
    the number of filtered rows whose type cleans to it, so that [Theft]
    and [Theft (minor)] are counted together. *)
Theorem X16_incident_types_count (df : list row) (selected_type t : string)
        (figs : figures) :
  update_graphs df selected_type = Ok figs ->
  let counts := incident_types_count figs in
  let rows := filtered_df df selected_type in
  total counts = typed rows
  /\ NoDup (map fst counts)
  /\ descending counts
  /\ Forall (fun kn => (1 <= snd kn)%nat) counts
  /\ bar_at t counts = rows_of_clean_type t rows.
Proof.
  intros G. apply update_graphs_figures in G. destruct G as [_ ->].
  cbv zeta. unfold figures_of. cbn [incident_types_count].
  set (rows := filtered_df df selected_type).
  destruct (value_counts_spec
              (map (fun r => option_map clean_type (Incident_Type r)) rows) t)
    as (D & N & P & B & T).
  split; [|split; [exact N|split; [exact D|split; [exact P|]]]].
  - rewrite T. unfold present, typed.
    rewrite filter_map_length. f_equal. apply filter_ext.
    intros r. now destruct (Incident_Type r).
  - rewrite B, filter_map_length. unfold rows_of_clean_type. f_equal.
    apply filter_ext. intros r. now destruct (Incident_Type r).
Qed.

Lemma X16_incident_types_witness :
  let df := [mkRow None PyNone (Some "Vandalism") "Unknown" (-1) None "Unknown";
             mkRow None PyNone (Some "Theft") "Unknown" (-1) None "Unknown";
             mkRow None PyNone (Some "Theft (minor)") "Unknown" (-1) None
                   "Unknown"] in
  update_graphs df "All"
  = Ok (figures_of df)
  /\ incident_types_count (figures_of df) = [("Theft", 2%nat); ("Vandalism", 1%nat)]
  /\ bar_at "Theft" (incident_types_count (figures_of df))
     = rows_of_clean_type "Theft" (filtered_df df "All").
Proof.
  cbv zeta. split; [vm_compute; reflexivity|].
  split; [vm_compute; reflexivity|].
  refine (proj2 (proj2 (proj2 (proj2
            (X16_incident_types_count _ "All" "Theft" _ _))))).
  vm_compute. reflexivity.
Defined.

Section TimeRange.

Lemma time_range_cases (h : Z) :
  (h < 0 /\ time_range h = "Unknown")
  \/ (0 <= h < 6 /\ time_range h = "12am-6am")
  \/ (6 <= h < 9 /\ time_range h = "6am-9am")
  \/ (9 <= h < 12 /\ time_range h = "9am-12pm")
  \/ (12 <= h < 15 /\ time_range h = "12pm-3pm")
  \/ (15 <= h < 18 /\ time_range h = "3pm-6pm")
  \/ (18 <= h < 21 /\ time_range h = "6pm-9pm")
  \/ (21 <= h /\ time_range h = "9pm-12am").
Proof.
  unfold time_range.
  destruct (Z.ltb_spec h 0); [now left|right].
  destruct (Z.ltb_spec h 6);
    [left; replace (0 <=? h) with true by lia; split; [lia|reflexivity]|right].
  destruct (Z.ltb_spec h 9);
    [left; replace (6 <=? h) with true by lia;
     rewrite ?andb_false_r; split; [lia|reflexivity]|right].
  destruct (Z.ltb_spec h 12);
    [left; replace (9 <=? h) with true by lia;
     rewrite ?andb_false_r; split; [lia|reflexivity]|right].
  destruct (Z.ltb_spec h 15);
    [left; replace (12 <=? h) with true by lia;
     rewrite ?andb_false_r; split; [lia|reflexivity]|right].
  destruct (Z.ltb_spec h 18);
    [left; replace (15 <=? h) with true by lia;
     rewrite ?andb_false_r; split; [lia|reflexivity]|right].
  destruct (Z.ltb_spec h 21);
    [left; replace (18 <=? h) with true by lia;
     rewrite ?andb_false_r; split; [lia|reflexivity]|right].
  rewrite ?andb_false_r. split; [lia|reflexivity].
Qed.

End TimeRange.

(** X17: [time_range] gives a label to every integer: [Unknown] exactly
    to the negative ones and [9pm-12am] exactly to those from 21 on, so
    that an hour of 24 or more would be shown in the last range. *)
Theorem X17_time_range_total (h : Z) :
  In (time_range h) time_range_labels
  /\ (time_range h = "Unknown" <-> h < 0)
  /\ (time_range h = "9pm-12am" <-> 21 <= h).
Proof.
  destruct (time_range_cases h)
    as [[H ->]|[[H ->]|[[H ->]|[[H ->]|[[H ->]|[[H ->]|[[H ->]|[H ->]]]]]]]];
    (split; [cbn; tauto|]);
    split; split; intros X; try discriminate X; try lia; reflexivity.
Qed.

(** X18: a space between the minutes and the marker is not accepted: a
    12-hour reading written like [2:30 pm] is standardized to
    [Unknown]. *)
Theorem X18_space_before_marker (h m : Z) (pad_hour pm : bool) :
  0 <= h <= 23 -> 0 <= m <= 59 ->
  standardize_time (PyStr (clock h m pad_hour ++ " " ++ marker pm))
  = Ok "Unknown".
Proof.
  intros Hh Hm. apply result_is_string.
  pose (p := fun pad pm h m =>
               result_is String.eqb
                 (standardize_time (PyStr (clock h m pad ++ " " ++ marker pm)))
                 "Unknown").
  change (p pad_hour pm h m = true).
  destruct pad_hour, pm; apply (forall_upto2 _ 24 60); try lia;
    vm_compute; reflexivity.
Qed.

Lemma X18_space_witness :
  standardize_time (PyStr "2:30 pm") = Ok "Unknown".
Proof.
  apply (X18_space_before_marker 2 30 false true); lia.
Defined.
